(** * Access-decision engine of iono-pi-access-control (src/database.py)

    A shallow embedding of [LocalDatabase], [RemoteVerifier] and
    [AccessVerifier], and the properties of the decision path.

    Modelling conventions.
    - Python values that reach the engine from a decoded JSON body are
      values of [pyval]; [None] is [PyNone], a [float] is a binary64 number.
    - [async] functions are functions in the monad [M]: state passing over
      the [World] (the two SQLite tables, the AUTOINCREMENT counter of the
      audit table, the HTTP client slot and a ghost trace of the calls made
      to the remote verifier), with Python exceptions as [Raise].
      [try ... except Exception] is [try_except].
    - Everything outside the process is read from an [Env], one per
      top-level call: the clock, whether each SQL statement raises for a
      reason of its own (a locked database, a full disk, a missing table),
      how SQLite reads a text as a number and writes a real number as text,
      what building the HTTP client does and what the POST returns.
    - Timestamps are integers, in seconds since 1970-01-01. A call reads
      [datetime.now()] once ([now]); the stamp that SQLite puts in
      [cached_at] is its own CURRENT_TIMESTAMP ([current_timestamp]), which
      is UTC and need not agree with the local time of [datetime.now()].
    - A table row holds, for each column, the Python value that sqlite3
      reads back from it. Binding a value and the affinity of the column
      decide what that is ([text_column], [numeric_column]); a value that
      sqlite3 cannot bind makes the INSERT raise. The permissions column,
      written with [json.dumps] and read with [json.loads], holds the value
      itself.
    - The logger never raises and is not modelled. *)

From Stdlib Require Import ZArith Lia Floats.
From stdpp Require Import gmap strings list fin_maps sorting pretty.

Set Warnings "-register-all".
Local Open Scope Z_scope.
Local Open Scope string_scope.
Local Open Scope list_scope.

(** ** Python values *)

Inductive pyval : Type :=
| PyNone
| PyBool (b : bool)
| PyInt (n : Z)
| PyFloat (f : float)
| PyStr (s : string)
| PyList (l : list pyval)
| PyDict (kv : list (string * pyval)).

(** [bool(v)] *)
Definition truthy (v : pyval) : bool :=
  match v with
  | PyNone => false
  | PyBool b => b
  | PyInt n => negb (n =? 0)%Z
  | PyFloat f => negb (f =? 0)%float
  | PyStr s => match s with EmptyString => false | String _ _ => true end
  | PyList l => match l with [] => false | _ => true end
  | PyDict kv => match kv with [] => false | _ => true end
  end.

(** [a or b] *)
Definition py_or (a b : pyval) : pyval := if truthy a then a else b.

(** Key lookup in a decoded JSON object. *)
Fixpoint assoc (kv : list (string * pyval)) (key : string) : option pyval :=
  match kv with
  | [] => None
  | (k, v) :: rest => if bool_decide (k = key) then Some v else assoc rest key
  end.

(** [data[key]] where [data] is a dict that has the key *)
Definition field_of (data : pyval) (key : string) : option pyval :=
  match data with
  | PyDict kv => assoc kv key
  | _ => None
  end.

(** [isinstance(data, dict)] *)
Definition is_dict (data : pyval) : bool :=
  match data with
  | PyDict _ => true
  | _ => false
  end.

(** ** Exceptions *)

Inductive Exc (A : Type) : Type :=
| Ok (a : A)
| Raise (e : string).
Arguments Ok {A} a.
Arguments Raise {A} e.

#[global] Instance Exc_ret : MRet Exc := fun _ a => Ok a.
#[global] Instance Exc_bind : MBind Exc := fun _ _ f m =>
  match m with
  | Ok a => f a
  | Raise e => Raise e
  end.

(** A statement without effects that raises when told to. *)
Definition raise_if (r : option string) : Exc unit :=
  match r with
  | Some e => Raise e
  | None => Ok tt
  end.

(** [try: body except Exception as e: handler] for code without effects *)
Definition try_pure {A} (body : Exc A) (handler : string → Exc A) : Exc A :=
  match body with
  | Ok a => Ok a
  | Raise e => handler e
  end.

(** [d.get(key, default)] on a dict *)
Definition dict_get (kv : list (string * pyval)) (key : string)
    (default : pyval) : pyval :=
  from_option id default (assoc kv key).

(** ** What SQLite stores *)

(** A number in a column: Python reads an INTEGER back as an [int], a REAL
    as a [float]. *)
Inductive sqlnum : Type :=
| SqlInteger (n : Z)
| SqlReal (f : float).

Definition read_sqlnum (x : sqlnum) : pyval :=
  match x with
  | SqlInteger n => PyInt n
  | SqlReal f => PyFloat f
  end.

(** What SQLite does with a text and with a real number when the column
    asks for the other: [numeric_literal s] is the number that a column of
    NUMERIC affinity stores in place of the text [s], [None] when it keeps
    the text; [real_text f] is the text that a column of TEXT affinity
    stores in place of the real number [f]. *)
Record Sqlite : Type := mkSqlite {
  numeric_literal : string → option sqlnum;
  real_text : float → string
}.

(** An [int] is bound as a 64-bit INTEGER; outside that range the binding
    raises OverflowError. *)
Definition fits_int64 (n : Z) : bool :=
  bool_decide (- 2 ^ 63 ≤ n)%Z && bool_decide (n < 2 ^ 63)%Z.

(** The integer that a column of NUMERIC affinity stores in place of the
    real number [f]: the value of [f] when it is a whole number strictly
    between the smallest and the largest 64-bit integer. *)
Definition real_integer (f : float) : option Z :=
  match Prim2SF f with
  | S754_zero _ => Some 0%Z
  | S754_finite s m e =>
      let whole :=
        bool_decide (0 ≤ e)%Z || bool_decide (Z.pos m mod 2 ^ (- e) = 0)%Z in
      let v :=
        if bool_decide (0 ≤ e)%Z then (Z.pos m * 2 ^ e)%Z
        else (Z.pos m / 2 ^ (- e))%Z in
      let n := (if s then - v else v)%Z in
      if whole && bool_decide (- 2 ^ 63 < n)%Z && bool_decide (n < 2 ^ 63 - 1)%Z
      then Some n
      else None
  | _ => None
  end.

(** What is read back from a column of TEXT affinity (declared TEXT) after
    [v] was bound to it: [None] and strings are kept, an [int] or a [bool]
    (bound as INTEGER 1 or 0) is turned into its decimal text, a [float]
    into the text of the real number, but NaN is bound as NULL. A list or a
    dict cannot be bound. *)
Definition text_column (db : Sqlite) (v : pyval) : Exc pyval :=
  match v with
  | PyNone => Ok PyNone
  | PyBool b => Ok (PyStr (if b then "1" else "0"))
  | PyInt n =>
      if fits_int64 n then Ok (PyStr (pretty n))
      else Raise "OverflowError: Python int too large to convert to SQLite INTEGER"
  | PyFloat f =>
      if is_nan f then Ok PyNone else Ok (PyStr (real_text db f))
  | PyStr s => Ok (PyStr s)
  | PyList _ => Raise "ProgrammingError: type 'list' is not supported"
  | PyDict _ => Raise "ProgrammingError: type 'dict' is not supported"
  end.

(** What is read back from a column of NUMERIC affinity (declared BOOLEAN)
    after [v] was bound to it: a [bool] comes back as the [int] 1 or 0, a
    [float] that is a whole number as an [int], NaN as [None], and a string
    that SQLite takes for a number as that number. *)
Definition numeric_column (db : Sqlite) (v : pyval) : Exc pyval :=
  match v with
  | PyNone => Ok PyNone
  | PyBool b => Ok (PyInt (if b then 1 else 0))
  | PyInt n =>
      if fits_int64 n then Ok (PyInt n)
      else Raise "OverflowError: Python int too large to convert to SQLite INTEGER"
  | PyFloat f =>
      if is_nan f then Ok PyNone
      else Ok (match real_integer f with
               | Some n => PyInt n
               | None => PyFloat f
               end)
  | PyStr s =>
      Ok (match numeric_literal db s with
          | Some x => read_sqlnum x
          | None => PyStr s
          end)
  | PyList _ => Raise "ProgrammingError: type 'list' is not supported"
  | PyDict _ => Raise "ProgrammingError: type 'dict' is not supported"
  end.

(** The largest id of a row, and the largest value of an AUTOINCREMENT
    counter. *)
Definition MAX_ROWID : Z := 2 ^ 63 - 1.

(** ** Dates *)

(** [datetime.min] and [datetime.max], to the second *)
Definition datetime_min : Z := -62135596800.
Definition datetime_max : Z := 253402300799.

(** [timedelta(hours=h)], in seconds; OverflowError beyond 999999999 days *)
Definition timedelta_hours (h : Z) : Exc Z :=
  if bool_decide (- 999999999 * 24 ≤ h)%Z
     && bool_decide (h ≤ 999999999 * 24 + 23)%Z
  then Ok (h * 3600)%Z
  else Raise "OverflowError: days out of range for timedelta".

(** [t - delta] on a [datetime]; OverflowError outside the years 1 to 9999 *)
Definition datetime_sub (t delta : Z) : Exc Z :=
  if bool_decide (datetime_min ≤ t - delta)%Z
     && bool_decide (t - delta ≤ datetime_max)%Z
  then Ok (t - delta)%Z
  else Raise "OverflowError: date value out of range".

(** ** Records of the source *)

(** [@dataclass AccessResult] *)
Record AccessResult : Type := mkAccessResult {
  granted : pyval;
  barcode : string;
  user_id : pyval;
  user_name : pyval;
  reason : pyval;
  expires_at : option Z;
  permissions : pyval;
  cached : bool
}.

(** [AccessResult(granted=g, barcode=b, reason=r)]: the other fields take
    the defaults of the dataclass. *)
Definition AccessResult_deny (b : string) (r : string) : AccessResult :=
  {| granted := PyBool false; barcode := b; user_id := PyNone;
     user_name := PyNone; reason := PyStr r; expires_at := None;
     permissions := PyNone; cached := false |}.

(** [@dataclass AccessLog]; [timestamp] is set by [__post_init__]. *)
Record AccessLog : Type := mkAccessLog {
  log_id : option Z;
  log_timestamp : Z;
  log_barcode : string;
  log_granted : pyval;
  log_user_id : pyval;
  log_user_name : pyval;
  log_reason : pyval;
  log_source : string
}.

(** A row of table [access_cache], as read back; the key column [barcode]
    is the key of the map. *)
Record CacheRow : Type := mkCacheRow {
  row_user_id : pyval;
  row_user_name : pyval;
  row_granted : pyval;
  row_permissions : pyval;
  row_expires_at : option Z;
  row_cached_at : Z
}.

(** [config.database.remote] *)
Record HttpConfig : Type := mkHttpConfig {
  base_url : string;
  verify_endpoint : string;
  auth_header : string;
  auth_token : string
}.

Record RemoteConfig : Type := mkRemoteConfig {
  type : string;
  http : HttpConfig
}.

(** ** The world and its environment *)

(** [access_logs_seq] is the entry of table [sqlite_sequence] for
    [access_logs]: the largest id ever given to a row of it. *)
Record World : Type := mkWorld {
  access_cache : gmap string CacheRow;
  access_logs : list AccessLog;
  access_logs_seq : Z;
  _client : bool;
  remote_calls : list string
}.

(** What [await client.post(...)] does. The body of a response is what
    [response.json()] yields: a value, or an exception when the body is not
    JSON. *)
Inductive HttpOutcome : Type :=
| PostRaises (e : string)
| Response (status_code : Z) (json : Exc pyval).

Record Env : Type := mkEnv {
  now : Z;
  current_timestamp : Z;
  sqlite : Sqlite;
  select_raises : option string;
  client_init_raises : option string;
  post : HttpOutcome;
  insert_cache_raises : option string;
  insert_log_raises : option string;
  delete_raises : option string
}.

(** ** The monad of the coroutines *)

Definition M (A : Type) : Type := World → Exc A * World.

#[global] Instance M_ret : MRet M := fun _ a w => (Ok a, w).
#[global] Instance M_bind : MBind M := fun _ _ f m w =>
  match m w with
  | (Ok a, w') => f a w'
  | (Raise e, w') => (Raise e, w')
  end.

Definition raise {A} (e : string) : M A := fun w => (Raise e, w).

(** A statement that raises when the environment says so. *)
Definition may_raise (r : option string) : M unit :=
  match r with
  | Some e => raise e
  | None => mret tt
  end.

(** An expression without effects, which may raise. *)
Definition lift {A} (x : Exc A) : M A := fun w => (x, w).

Definition get_world : M World := fun w => (Ok w, w).
Definition put_world (w : World) : M unit := fun _ => (Ok tt, w).

(** [try: body except Exception as e: handler] *)
Definition try_except {A} (body : M A) (handler : string → M A) : M A :=
  fun w =>
    match body w with
    | (Ok a, w') => (Ok a, w')
    | (Raise e, w') => handler e w'
    end.

(** ** SQL statements *)

(** [SELECT ... FROM access_cache WHERE barcode = ?], then [fetchone()] *)
Definition select_cache (env : Env) (b : string) : M (option CacheRow) :=
  _ ← may_raise (select_raises env);
  w ← get_world;
  mret (access_cache w !! b).

(** The row that [INSERT OR REPLACE INTO access_cache (...) VALUES (...)]
    stores for the values bound, or the exception it raises: user_id and
    user_name go to TEXT columns, granted to a BOOLEAN column, permissions
    is the text made by [json.dumps], and [cached_at] takes its default,
    CURRENT_TIMESTAMP. *)
Definition insert_cache_row (env : Env) (uid uname g perms : pyval)
    (exp : option Z) : Exc CacheRow :=
  _ ← raise_if (insert_cache_raises env);
  uid' ← text_column (sqlite env) uid;
  uname' ← text_column (sqlite env) uname;
  g' ← numeric_column (sqlite env) g;
  mret {| row_user_id := uid'; row_user_name := uname';
          row_granted := g'; row_permissions := perms;
          row_expires_at := exp;
          row_cached_at := current_timestamp env |}.

Definition insert_or_replace_cache (env : Env) (b : string)
    (uid uname g perms : pyval) (exp : option Z) : M unit :=
  row ← lift (insert_cache_row env uid uname g perms exp);
  w ← get_world;
  put_world
    {| access_cache := <[b := row]> (access_cache w);
       access_logs := access_logs w;
       access_logs_seq := access_logs_seq w;
       _client := _client w;
       remote_calls := remote_calls w |}.

(** The id of a row of [access_logs]. Every row of the table has one; an
    [AccessLog] without id is an entry that was not read from the table. *)
Definition rowid (e : AccessLog) : Z := default 0 (log_id e).

(** The largest id in the table, [None] for the empty table. *)
Fixpoint last_rowid (logs : list AccessLog) : option Z :=
  match logs with
  | [] => None
  | e :: rest =>
      Some (match last_rowid rest with
            | Some m => Z.max (rowid e) m
            | None => rowid e
            end)
  end.

(** [id INTEGER PRIMARY KEY AUTOINCREMENT]: one more than the largest id in
    the table (1 for the empty table), and more than the largest id ever
    given. *)
Definition next_rowid (w : World) : Z :=
  Z.max (match last_rowid (access_logs w) with
         | Some m => m + 1
         | None => 1
         end)
        (access_logs_seq w + 1).

(** No id is left once the largest one is in the table or was ever given:
    the INSERT fails with SQLITE_FULL. *)
Definition rowids_exhausted (w : World) : bool :=
  bool_decide (MAX_ROWID ≤ default 0 (last_rowid (access_logs w)))%Z
  || bool_decide (MAX_ROWID ≤ access_logs_seq w)%Z.

(** The row that [INSERT INTO access_logs (...) VALUES (...)] stores for
    [entry], or the exception it raises: granted goes to a BOOLEAN column,
    user_id, user_name and reason to TEXT columns. *)
Definition insert_log_row (env : Env) (w : World) (entry : AccessLog)
    : Exc AccessLog :=
  _ ← raise_if (insert_log_raises env);
  g ← numeric_column (sqlite env) (log_granted entry);
  uid ← text_column (sqlite env) (log_user_id entry);
  uname ← text_column (sqlite env) (log_user_name entry);
  r ← text_column (sqlite env) (log_reason entry);
  _ ← (if rowids_exhausted w
       then Raise "OperationalError: database or disk is full"
       else Ok tt);
  mret {| log_id := Some (next_rowid w);
          log_timestamp := log_timestamp entry;
          log_barcode := log_barcode entry;
          log_granted := g;
          log_user_id := uid;
          log_user_name := uname;
          log_reason := r;
          log_source := log_source entry |}.

Definition insert_log (env : Env) (entry : AccessLog) : M unit :=
  w ← get_world;
  row ← lift (insert_log_row env w entry);
  put_world
    {| access_cache := access_cache w;
       access_logs := access_logs w ++ [row];
       access_logs_seq := next_rowid w;
       _client := _client w;
       remote_calls := remote_calls w |}.

(** [DELETE FROM access_cache WHERE cached_at < ?] *)
Definition delete_cache_before (env : Env) (cutoff : Z) : M unit :=
  _ ← may_raise (delete_raises env);
  w ← get_world;
  put_world
    {| access_cache :=
         filter (λ kr, ¬ (row_cached_at kr.2 < cutoff)) (access_cache w);
       access_logs := access_logs w;
       access_logs_seq := access_logs_seq w;
       _client := _client w;
       remote_calls := remote_calls w |}.

(** ** LocalDatabase *)

Definition cache_access_result (env : Env) (result : AccessResult) : M pyval :=
  try_except
    (_ ← insert_or_replace_cache env
           (barcode result) (user_id result) (user_name result)
           (granted result) (py_or (permissions result) (PyList []))
           (expires_at result);
     mret PyNone)
    (λ e, mret PyNone).

Definition get_cached_access (env : Env) (b : string) : M (option AccessResult) :=
  try_except
    (row ← select_cache env b;
     match row with
     | Some r =>
         let cache_age := now env - row_cached_at r in
         if bool_decide (cache_age < 3600) then
           mret (Some {| granted := row_granted r;
                         barcode := b;
                         user_id := row_user_id r;
                         user_name := row_user_name r;
                         reason := PyNone;
                         expires_at := row_expires_at r;
                         permissions := row_permissions r;
                         cached := true |})
         else mret None
     | None => mret None
     end)
    (λ e, mret None).

Definition log_access_attempt (env : Env) (log_entry : AccessLog) : M pyval :=
  try_except
    (_ ← insert_log env log_entry; mret PyNone)
    (λ e, mret PyNone).

Definition cleanup_old_cache (env : Env) (max_age_hours : Z) : M pyval :=
  try_except
    (delta ← lift (timedelta_hours max_age_hours);
     cutoff_time ← lift (datetime_sub (now env) delta);
     _ ← delete_cache_before env cutoff_time;
     mret PyNone)
    (λ e, mret PyNone).

(** The default of the parameter of [cleanup_old_cache]. *)
Definition default_max_age_hours : Z := 24.

(** [ORDER BY timestamp DESC]. SQL leaves the order among rows of equal
    timestamp open; the sort below fixes one, and no statement about
    [get_access_logs] depends on which. *)
Definition newer_first (x y : AccessLog) : Prop :=
  (log_timestamp y ≤ log_timestamp x)%Z.

#[global] Instance newer_first_dec : RelDecision newer_first.
Proof. intros x y. unfold newer_first. apply _. Defined.

(** [LIMIT ? OFFSET ?]: a negative limit is no limit, a negative offset is
    offset 0. *)
Definition limit_offset {A} (limit offset : Z) (rows : list A) : list A :=
  let rest := drop (Z.to_nat offset) rows in
  if bool_decide (limit < 0)%Z then rest else take (Z.to_nat limit) rest.

(** [SELECT ... FROM access_logs ORDER BY timestamp DESC LIMIT ? OFFSET ?];
    it is the one SELECT of a call of [get_access_logs], and raises when
    [select_raises] says so. *)
Definition select_logs (env : Env) (limit offset : Z) : M (list AccessLog) :=
  _ ← may_raise (select_raises env);
  if fits_int64 limit && fits_int64 offset then
    w ← get_world;
    mret (limit_offset limit offset (merge_sort newer_first (access_logs w)))
  else raise "OverflowError: Python int too large to convert to SQLite INTEGER".

(** [LocalDatabase.get_access_logs]; [AccessVerifier.get_access_logs]
    forwards to it. The defaults of the parameters are 100 and 0. *)
Definition get_access_logs (env : Env) (limit offset : Z)
    : M (list AccessLog) :=
  try_except
    (rows ← select_logs env limit offset; mret rows)
    (λ e, mret []).

(** ** api.py: the audit helper *)

(** [log_api_access]: the entry has no [user_name]. *)
Definition log_api_access (env : Env) (b : string) (g : bool)
    (uid : pyval) (r source : string) : M pyval :=
  try_except
    (log_access_attempt env
       {| log_id := None;
          log_timestamp := now env;
          log_barcode := b;
          log_granted := PyBool g;
          log_user_id := uid;
          log_user_name := PyNone;
          log_reason := PyStr r;
          log_source := source |})
    (λ e, mret PyNone).

(** ** hardware.py: relays and the door *)

(** [config.hardware.relays] and [config.hardware.door] *)
Record RelayConfig : Type := mkRelayConfig {
  door_control : Z;
  auxiliary : Z;
  spare1 : Z;
  spare2 : Z
}.

Record DoorConfig : Type := mkDoorConfig {
  unlock_duration : Z;
  sensor_normally_closed : bool
}.

Record HardwareConfig : Type := mkHardwareConfig {
  relays : RelayConfig;
  door : DoorConfig
}.

(** The GPIO outputs as last written, and the threads started to switch a
    pin off again: the pin and the seconds to sleep first. What happens
    when such a thread wakes is not modelled. Durations are whole seconds. *)
Record Hardware : Type := mkHardware {
  pin_states : gmap Z Z;
  deactivations : list (Z * Z)
}.

Definition GPIO_HIGH : Z := 1.
Definition GPIO_LOW : Z := 0.

(** [pin_map.get(relay_name)] for the [pin_map] of [set_relay] *)
Definition relay_pin (cfg : HardwareConfig) (relay_name : string) : option Z :=
  if bool_decide (relay_name = "door_control") then
    Some (door_control (relays cfg))
  else if bool_decide (relay_name = "auxiliary") then
    Some (auxiliary (relays cfg))
  else if bool_decide (relay_name = "spare1") then Some (spare1 (relays cfg))
  else if bool_decide (relay_name = "spare2") then Some (spare2 (relays cfg))
  else None.

(** [bool(duration)] for an optional number *)
Definition truthy_duration (duration : option Z) : bool :=
  match duration with
  | Some d => negb (d =? 0)%Z
  | None => false
  end.

(** [IonoHardware.set_relay]; [output_raises] says whether [gpio.output]
    raises, in which case the exception is logged and raised again. *)
Definition set_relay (cfg : HardwareConfig) (output_raises : option string)
    (relay_name : string) (state : bool) (duration : option Z)
    (h : Hardware) : Exc pyval * Hardware :=
  match relay_pin cfg relay_name with
  | None => (Raise ("Unknown relay: " +:+ relay_name), h)
  | Some pin =>
      match output_raises with
      | Some e => (Raise e, h)
      | None =>
          let gpio_state := if state then GPIO_HIGH else GPIO_LOW in
          let h1 := {| pin_states := <[pin := gpio_state]> (pin_states h);
                       deactivations := deactivations h |} in
          if truthy_duration duration && state then
            (Ok PyNone,
             {| pin_states := pin_states h1;
                deactivations :=
                  deactivations h1 ++ [(pin, default 0 duration)] |})
          else (Ok PyNone, h1)
      end
  end.

(** [IonoHardware.open_door]: [duration or config.hardware.door.unlock_duration] *)
Definition open_door (cfg : HardwareConfig) (output_raises : option string)
    (duration : option Z) (h : Hardware) : Exc pyval * Hardware :=
  let unlock_duration :=
    if truthy_duration duration then default 0 duration
    else unlock_duration (door cfg) in
  set_relay cfg output_raises "door_control" true (Some unlock_duration) h.

Section Verifier.

(** [datetime.fromisoformat], [None] where it raises ValueError *)
Variable fromisoformat : string → option Z.
(** module constant [HTTP_AVAILABLE] *)
Variable HTTP_AVAILABLE : bool.
(** [self.config] of the [RemoteVerifier] *)
Variable config : RemoteConfig.

(** ** RemoteVerifier *)

Definition _get_client (env : Env) : M (option unit) :=
  if negb HTTP_AVAILABLE then mret None
  else
    w ← get_world;
    if _client w then mret (Some tt)
    else
      _ ← may_raise (client_init_raises env);
      _ ← put_world {| access_cache := access_cache w;
                       access_logs := access_logs w;
                       access_logs_seq := access_logs_seq w;
                       _client := true;
                       remote_calls := remote_calls w |};
      mret (Some tt).

(** The first [data.get] raises AttributeError unless [data] is a dict; on a
    dict no statement of the body raises ([fromisoformat] has its own
    [try ... except: pass]). *)
Definition _parse_verification_response (b : string) (data : pyval)
    : Exc AccessResult :=
  try_pure
    (match data with
     | PyDict kv =>
         let granted := dict_get kv "access_granted" (PyBool false) in
         let user_id := dict_get kv "user_id" PyNone in
         let user_name := dict_get kv "user_name" (dict_get kv "name" PyNone) in
         let reason :=
           dict_get kv "reason"
             (PyStr (if truthy granted then "Access granted"
                     else "Access denied")) in
         let permissions := dict_get kv "permissions" (PyList []) in
         let expires_at :=
           match assoc kv "expires_at" with
           | Some (PyStr s) => fromisoformat s
           | Some _ => None
           | None => None
           end in
         Ok {| granted := granted; barcode := b; user_id := user_id;
               user_name := user_name; reason := reason;
               expires_at := expires_at; permissions := permissions;
               cached := false |}
     | _ => Raise "AttributeError: object has no attribute 'get'"
     end)
    (λ e, Ok (AccessResult_deny b "Invalid response format")).

(** Ghost: records that the remote verifier was asked about [b]. *)
Definition note_remote_call (b : string) : M unit :=
  w ← get_world;
  put_world {| access_cache := access_cache w;
               access_logs := access_logs w;
               access_logs_seq := access_logs_seq w;
               _client := _client w;
               remote_calls := remote_calls w ++ [b] |}.

Definition client_post (env : Env) : M (Z * Exc pyval) :=
  match post env with
  | PostRaises e => raise e
  | Response status body => mret (status, body)
  end.

Definition verify_barcode (env : Env) (b : string) : M (option AccessResult) :=
  _ ← note_remote_call b;
  if bool_decide (type config ≠ "http")
     || bool_decide (base_url (http config) = "")
  then mret None
  else
    client ← _get_client env;
    match client with
    | None => mret None
    | Some _ =>
        try_except
          (response ← client_post env;
           if bool_decide (response.1 = 200) then
             data ← lift response.2;
             r ← lift (_parse_verification_response b data);
             mret (Some r)
           else if bool_decide (response.1 = 404) then
             mret (Some (AccessResult_deny b "Barcode not found in database"))
           else mret None)
          (λ e, mret None)
    end.

(** ** AccessVerifier *)

(** The result built when the remote verifier yields nothing. *)
Definition fallback_result (b : string) : AccessResult :=
  AccessResult_deny b "Remote verification unavailable".

Definition verify_access_log_entry (env : Env) (b : string) (source : string)
    (result : AccessResult) : AccessLog :=
  {| log_id := None;
     log_timestamp := now env;
     log_barcode := b;
     log_granted := granted result;
     log_user_id := user_id result;
     log_user_name := user_name result;
     log_reason :=
       py_or (reason result)
         (PyStr (if truthy (granted result) then "Access granted"
                 else "Access denied"));
     log_source := source |}.

Definition verify_access (env : Env) (b : string) (source : string)
    : M AccessResult :=
  try_except
    (cached_result ← get_cached_access env b;
     result ←
       match cached_result with
       | Some r => mret r
       | None =>
           result ← verify_barcode env b;
           match result with
           | Some r => _ ← cache_access_result env r; mret r
           | None => mret (fallback_result b)
           end
       end;
     _ ← log_access_attempt env (verify_access_log_entry env b source result);
     mret result)
    (λ e,
       let result := AccessResult_deny b "Verification error" in
       _ ← try_except
             (log_access_attempt env
                {| log_id := None;
                   log_timestamp := now env;
                   log_barcode := b;
                   log_granted := PyBool false;
                   log_user_id := PyNone;
                   log_user_name := PyNone;
                   log_reason := PyStr ("Verification error: " +:+ e);
                   log_source := source |})
             (λ _, mret PyNone);
       mret result).

(** One turn of the loop of [_periodic_cleanup], after the sleep. *)
Definition _periodic_cleanup_turn (env : Env) : M unit :=
  try_except
    (_ ← cleanup_old_cache env default_max_age_hours; mret tt)
    (λ e, mret tt).

(** ** The callers of the engine *)

(** [AccessControlSystem._process_barcode_access] of main.py; the handler
    [handle_barcode_access] of api.py has the same body. The state is the
    world of the engine and the hardware. *)
Definition _process_barcode_access (hw : HardwareConfig) (env : Env)
    (output_raises : option string) (b : string) (s : World * Hardware)
    : Exc pyval * (World * Hardware) :=
  match verify_access env b "barcode" s.1 with
  | (Ok result, w') =>
      if truthy (granted result) then
        match open_door hw output_raises None s.2 with
        | (Ok _, h') => (Ok PyNone, (w', h'))
        | (Raise e, h') => (Ok PyNone, (w', h'))
        end
      else (Ok PyNone, (w', s.2))
  | (Raise e, w') => (Ok PyNone, (w', s.2))
  end.

(** The endpoint [/emergency/override] of api.py, once the token is
    accepted; [Ok] carries the message of the response, [Raise] the detail
    of the HTTP 500. *)
Definition emergency_override (hw : HardwareConfig) (env : Env)
    (output_raises : option string) (r current_user : string)
    (s : World * Hardware) : Exc string * (World * Hardware) :=
  match log_api_access env "EMERGENCY" true (PyStr current_user) r
          "emergency" s.1 with
  | (Ok _, w') =>
      match open_door hw output_raises (Some 30) s.2 with
      | (Ok _, h') => (Ok ("Emergency override activated: " +:+ r), (w', h'))
      | (Raise e, h') =>
          (Raise ("Emergency override failed: " +:+ e), (w', h'))
      end
  | (Raise e, w') => (Raise ("Emergency override failed: " +:+ e), (w', s.2))
  end.

(** The calls that reach the database, one after the other. *)
Inductive Call : Type :=
| CallVerify (env : Env) (b source : string)
| CallCleanup (env : Env)
| CallLogApi (env : Env) (b : string) (g : bool) (uid : pyval)
    (r source : string)
| CallGetLogs (env : Env) (limit offset : Z).

Definition run_call (c : Call) (w : World) : World :=
  match c with
  | CallVerify env b source => (verify_access env b source w).2
  | CallCleanup env => (_periodic_cleanup_turn env w).2
  | CallLogApi env b g uid r source => (log_api_access env b g uid r source w).2
  | CallGetLogs env limit offset => (get_access_logs env limit offset w).2
  end.

Definition run_calls (cs : list Call) (w : World) : World :=
  foldl (λ w c, run_call c w) w cs.

(** Whether a call writes to the audit table. *)
Definition writes_audit (c : Call) : bool :=
  match c with
  | CallVerify _ _ _ => true
  | CallLogApi _ _ _ _ _ _ => true
  | _ => false
  end.

(** ** Reading the helpers as equations *)

(** What [get_cached_access] returns, as a function of the table. *)
Definition cache_view (env : Env) (b : string) (w : World)
    : option AccessResult :=
  match select_raises env with
  | Some _ => None
  | None =>
      match access_cache w !! b with
      | Some r =>
          if bool_decide (now env - row_cached_at r < 3600) then
            Some {| granted := row_granted r; barcode := b;
                    user_id := row_user_id r; user_name := row_user_name r;
                    reason := PyNone; expires_at := row_expires_at r;
                    permissions := row_permissions r; cached := true |}
          else None
      | None => None
      end
  end.

(** The row that [cache_access_result] hands to the INSERT for [r], as the
    table stores it, or the exception of the INSERT. *)
Definition cache_row (env : Env) (r : AccessResult) : Exc CacheRow :=
  insert_cache_row env (user_id r) (user_name r) (granted r)
    (py_or (permissions r) (PyList [])) (expires_at r).

(** The world after [cache_access_result]. *)
Definition cached_world (env : Env) (r : AccessResult) (w : World) : World :=
  match cache_row env r with
  | Raise _ => w
  | Ok row =>
      {| access_cache := <[barcode r := row]> (access_cache w);
         access_logs := access_logs w;
         access_logs_seq := access_logs_seq w;
         _client := _client w;
         remote_calls := remote_calls w |}
  end.

(** The world after [log_access_attempt]. *)
Definition logged_world (env : Env) (entry : AccessLog) (w : World) : World :=
  match insert_log_row env w entry with
  | Raise _ => w
  | Ok row =>
      {| access_cache := access_cache w;
         access_logs := access_logs w ++ [row];
         access_logs_seq := next_rowid w;
         _client := _client w;
         remote_calls := remote_calls w |}
  end.

(** The cutoff of a sweep, or the OverflowError of computing it. *)
Definition cleanup_cutoff (env : Env) (max_age_hours : Z) : Exc Z :=
  delta ← timedelta_hours max_age_hours;
  datetime_sub (now env) delta.

(** The world after [cleanup_old_cache]. *)
Definition swept_world (env : Env) (max_age_hours : Z) (w : World) : World :=
  match cleanup_cutoff env max_age_hours, delete_raises env with
  | Ok cutoff, None =>
      {| access_cache :=
           filter (λ kr, ¬ (row_cached_at kr.2 < cutoff)%Z) (access_cache w);
         access_logs := access_logs w;
         access_logs_seq := access_logs_seq w;
         _client := _client w;
         remote_calls := remote_calls w |}
  | _, _ => w
  end.

(** The world after [note_remote_call]. *)
Definition called_world (b : string) (w : World) : World :=
  {| access_cache := access_cache w;
     access_logs := access_logs w;
     access_logs_seq := access_logs_seq w;
     _client := _client w;
     remote_calls := remote_calls w ++ [b] |}.

(** What the [try] block of [verify_barcode] returns once a client is at
    hand. *)
Definition post_view (env : Env) (b : string) : option AccessResult :=
  match post env with
  | PostRaises _ => None
  | Response status body =>
      if bool_decide (status = 200) then
        match body with
        | Ok data =>
            match _parse_verification_response b data with
            | Ok r => Some r
            | Raise _ => None
            end
        | Raise _ => None
        end
      else if bool_decide (status = 404) then
        Some (AccessResult_deny b "Barcode not found in database")
      else None
  end.

(** [verify_barcode], branch by branch. *)
Definition remote_view (env : Env) (b : string) (w : World)
    : Exc (option AccessResult) * World :=
  if bool_decide (type config ≠ "http")
     || bool_decide (base_url (http config) = "")
  then (Ok None, called_world b w)
  else if negb HTTP_AVAILABLE then (Ok None, called_world b w)
  else if _client w then (Ok (post_view env b), called_world b w)
  else
    match client_init_raises env with
    | Some e => (Raise e, called_world b w)
    | None =>
        (Ok (post_view env b),
         {| access_cache := access_cache w;
            access_logs := access_logs w;
            access_logs_seq := access_logs_seq w;
            _client := true;
            remote_calls := remote_calls w ++ [b] |})
    end.

(** The entry logged by the handler of [verify_access]. *)
Definition error_log_entry (env : Env) (b source e : string) : AccessLog :=
  {| log_id := None;
     log_timestamp := now env;
     log_barcode := b;
     log_granted := PyBool false;
     log_user_id := PyNone;
     log_user_name := PyNone;
     log_reason := PyStr ("Verification error: " +:+ e);
     log_source := source |}.

(** [verify_access], branch by branch. *)
Definition access_view (env : Env) (b source : string) (w : World)
    : Exc AccessResult * World :=
  match cache_view env b w with
  | Some r =>
      (Ok r, logged_world env (verify_access_log_entry env b source r) w)
  | None =>
      match remote_view env b w with
      | (Ok (Some r), w1) =>
          (Ok r,
           logged_world env (verify_access_log_entry env b source r)
             (cached_world env r w1))
      | (Ok None, w1) =>
          (Ok (fallback_result b),
           logged_world env
             (verify_access_log_entry env b source (fallback_result b)) w1)
      | (Raise e, w1) =>
          (Ok (AccessResult_deny b "Verification error"),
           logged_world env (error_log_entry env b source e) w1)
      end
  end.

(** [env] with the audit INSERT made to raise [e]. *)
Definition with_log_failure (e : string) (env : Env) : Env :=
  {| now := now env;
     current_timestamp := current_timestamp env;
     sqlite := sqlite env;
     select_raises := select_raises env;
     client_init_raises := client_init_raises env;
     post := post env;
     insert_cache_raises := insert_cache_raises env;
     insert_log_raises := Some e;
     delete_raises := delete_raises env |}.

(** [env] with the cache INSERT made to raise [e]. *)
Definition with_cache_failure (e : string) (env : Env) : Env :=
  {| now := now env;
     current_timestamp := current_timestamp env;
     sqlite := sqlite env;
     select_raises := select_raises env;
     client_init_raises := client_init_raises env;
     post := post env;
     insert_cache_raises := Some e;
     insert_log_raises := insert_log_raises env;
     delete_raises := delete_raises env |}.

(** ** Scenario data *)

(** A [fromisoformat] that knows the expiry used by the example server. *)
Definition example_fromisoformat (s : string) : option Z :=
  if bool_decide (s = "2025-12-31T23:59:59") then Some 1767225599 else None.

(** The defaults of [DatabaseConfig.RemoteConfig]: no base URL. *)
Definition default_config : RemoteConfig :=
  {| type := "http";
     http := {| base_url := ""; verify_endpoint := "/access/verify";
                auth_header := "Authorization"; auth_token := "" |} |}.

Definition http_config : RemoteConfig :=
  {| type := "http";
     http := {| base_url := "https://authority.example";
                verify_endpoint := "/access/verify";
                auth_header := "Authorization";
                auth_token := "Bearer token" |} |}.

Definition empty_world : World :=
  {| access_cache := ∅; access_logs := []; access_logs_seq := 0;
     _client := false; remote_calls := [] |}.

(** The value of a text of decimal digits. *)
Fixpoint decimal_digits (acc : Z) (s : string) : option Z :=
  match s with
  | EmptyString => Some acc
  | String c rest =>
      let d := (Z.of_N (Ascii.N_of_ascii c) - 48)%Z in
      if bool_decide (0 ≤ d)%Z && bool_decide (d ≤ 9)%Z
      then decimal_digits (acc * 10 + d) rest
      else None
  end.

(** How the scenarios read a text as a number: decimal digits after an
    optional minus sign are the integer they spell when it fits 64 bits,
    and any other text is no number. SQLite takes more texts for numbers
    (a plus sign, blanks around the digits, a fraction, an exponent, digits
    beyond 64 bits), and no scenario binds one of these to a BOOLEAN
    column. *)
Definition decimal_literal (s : string) : option sqlnum :=
  let number :=
    match s with
    | EmptyString => None
    | String c rest =>
        if bool_decide (String c EmptyString = "-") then
          if bool_decide (rest = "") then None
          else n ← decimal_digits 0 rest; Some (- n)%Z
        else decimal_digits 0 s
    end in
  n ← number;
  if fits_int64 n then Some (SqlInteger n) else None.

(** The SQLite of the scenarios; no scenario binds a [float] to a TEXT
    column, and [real_text] is not the text that SQLite writes. *)
Definition scenario_sqlite : Sqlite :=
  {| numeric_literal := decimal_literal; real_text := λ _, "" |}.

(** An environment in which no SQL statement and no client set-up raises,
    on a host whose local time is UTC. *)
Definition quiet_env (t : Z) (p : HttpOutcome) : Env :=
  {| now := t; current_timestamp := t; sqlite := scenario_sqlite;
     select_raises := None;
     client_init_raises := None;
     post := p; insert_cache_raises := None; insert_log_raises := None;
     delete_raises := None |}.

Definition timeout_env (t : Z) : Env :=
  quiet_env t (PostRaises "ReadTimeout").

(** Scenario a: the authority grants "123456789". *)
Definition grant_body : pyval :=
  PyDict [("access_granted", PyBool true); ("user_id", PyStr "user001");
          ("permissions", PyList [PyStr "door_access"])].

(** Scenario d: a row for "555" cached at time 0 whose remote expiry is far
    off. *)
Definition row_555 : CacheRow :=
  {| row_user_id := PyStr "user555"; row_user_name := PyStr "Five";
     row_granted := PyInt 1;
     row_permissions := PyList [PyStr "door_access"];
     row_expires_at := Some 1767225599; row_cached_at := 0 |}.

Definition world_555 : World :=
  {| access_cache := {[ "555" := row_555 ]}; access_logs := [];
     access_logs_seq := 0; _client := false; remote_calls := [] |}.

(** Scenario b: the authority answers 404, as the example server does. *)
Definition not_found_env (t : Z) : Env :=
  quiet_env t
    (Response 404
       (Ok (PyDict [("access_granted", PyBool false);
                    ("reason", PyStr "Barcode not found in database")]))).

(** The cache read fails and the POST times out. *)
Definition locked_read_env (t : Z) : Env :=
  {| now := t; current_timestamp := t; sqlite := scenario_sqlite;
     select_raises := Some "OperationalError: database is locked";
     client_init_raises := None; post := PostRaises "ReadTimeout";
     insert_cache_raises := None; insert_log_raises := None;
     delete_raises := None |}.

(** A 200 response whose body is a JSON array. *)
Definition array_body_env (t : Z) : Env :=
  quiet_env t (Response 200 (Ok (PyList []))).

(** A 503 response; its body is never read. *)
Definition server_error_env (t : Z) : Env :=
  quiet_env t (Response 503 (Raise "JSONDecodeError")).

(** The result that [_parse_verification_response] builds from
    [grant_body]. *)
Definition grant_result (b : string) : AccessResult :=
  {| granted := PyBool true; barcode := b; user_id := PyStr "user001";
     user_name := PyNone; reason := PyStr "Access granted";
     expires_at := None; permissions := PyList [PyStr "door_access"];
     cached := false |}.

(** The row that the cache holds for [grant_result] written at time 0. *)
Definition grant_row : CacheRow :=
  {| row_user_id := PyStr "user001"; row_user_name := PyNone;
     row_granted := PyInt 1;
     row_permissions := PyList [PyStr "door_access"];
     row_expires_at := None; row_cached_at := 0 |}.

(** A body whose [access_granted] is the string "0" and whose [user_id] is
    a number. *)
Definition zero_grant_body : pyval :=
  PyDict [("access_granted", PyStr "0"); ("user_id", PyInt 7)].

(** No statement on the database succeeds. *)
Definition broken_db_env (t : Z) (p : HttpOutcome) : Env :=
  {| now := t; current_timestamp := t; sqlite := scenario_sqlite;
     select_raises := Some "OperationalError: unable to open database file";
     client_init_raises := None; post := p;
     insert_cache_raises :=
       Some "OperationalError: unable to open database file";
     insert_log_raises :=
       Some "OperationalError: unable to open database file";
     delete_raises :=
       Some "OperationalError: unable to open database file" |}.

(** Two cache rows, one written at time 0 and one at time 90000. *)
Definition old_row : CacheRow :=
  {| row_user_id := PyStr "user001"; row_user_name := PyNone;
     row_granted := PyInt 1; row_permissions := PyList [];
     row_expires_at := None; row_cached_at := 0 |}.

Definition new_row : CacheRow :=
  {| row_user_id := PyStr "user002"; row_user_name := PyNone;
     row_granted := PyInt 0; row_permissions := PyList [];
     row_expires_at := None; row_cached_at := 90000 |}.

Definition two_row_world : World :=
  {| access_cache := {[ "old" := old_row; "new" := new_row ]};
     access_logs := []; access_logs_seq := 0; _client := false;
     remote_calls := [] |}.

(** The DELETE of the sweep raises. *)
Definition delete_fail_env (t : Z) : Env :=
  {| now := t; current_timestamp := t; sqlite := scenario_sqlite;
     select_raises := None;
     client_init_raises := None;
     post := PostRaises "ReadTimeout"; insert_cache_raises := None;
     insert_log_raises := None;
     delete_raises := Some "OperationalError: database is locked" |}.

(** The pins of [HardwareConfig.RelayConfig] and the door defaults. *)
Definition default_hardware : HardwareConfig :=
  {| relays := {| door_control := 4; auxiliary := 17; spare1 := 27;
                  spare2 := 22 |};
     door := {| unlock_duration := 5; sensor_normally_closed := true |} |}.

(** All relay outputs low, as [_setup_gpio] leaves them. *)
Definition idle_hardware : Hardware :=
  {| pin_states := {[ 4 := 0; 17 := 0; 27 := 0; 22 := 0 ]}%Z;
     deactivations := [] |}.

(** Three audit rows whose timestamps are not in the order of the ids. *)
Definition audit_row (i t : Z) (b : string) : AccessLog :=
  {| log_id := Some i; log_timestamp := t; log_barcode := b;
     log_granted := PyInt 0; log_user_id := PyNone;
     log_user_name := PyNone; log_reason := PyStr "Access denied";
     log_source := "barcode" |}.

Definition three_log_world : World :=
  {| access_cache := ∅;
     access_logs := [audit_row 1 50 "A1"; audit_row 2 70 "B2";
                     audit_row 3 60 "C3"];
     access_logs_seq := 3; _client := false; remote_calls := [] |}.

(** A row for "777" written at time 1000 whose remote expiry, 500, was
    already past when it was written. *)
Definition expired_row : CacheRow :=
  {| row_user_id := PyStr "user777"; row_user_name := PyNone;
     row_granted := PyInt 1; row_permissions := PyList [];
     row_expires_at := Some 500; row_cached_at := 1000 |}.

Definition expired_world : World :=
  {| access_cache := {[ "777" := expired_row ]}; access_logs := [];
     access_logs_seq := 0; _client := false; remote_calls := [] |}.

(** A body that grants, whose [user_id] is a JSON array. *)
Definition array_user_body : pyval :=
  PyDict [("access_granted", PyBool true); ("user_id", PyList [PyInt 1])].

(** A body whose [access_granted] is a string. *)
Definition string_grant_body : list (string * pyval) :=
  [("access_granted", PyStr "false"); ("user_id", PyStr "user001")].

Ltac munfold :=
  repeat progress
    (unfold may_raise, raise, get_world, put_world, lift, try_except, try_pure,
       mbind, mret, M_bind, M_ret);
  cbn.

Lemma get_cached_access_eq env b w :
  get_cached_access env b w = (Ok (cache_view env b w), w).
Proof.
  unfold get_cached_access, cache_view, select_cache. munfold.
  destruct (select_raises env); [reflexivity|].
  destruct (access_cache w !! b) as [r|]; [|reflexivity].
  destruct (bool_decide _); reflexivity.
Qed.

Lemma cache_access_result_eq env r w :
  cache_access_result env r w = (Ok PyNone, cached_world env r w).
Proof.
  unfold cache_access_result, cached_world, insert_or_replace_cache, cache_row.
  unfold try_except, mbind, M_bind, lift.
  destruct (insert_cache_row env _ _ _ _ _); reflexivity.
Qed.

Lemma log_access_attempt_eq env entry w :
  log_access_attempt env entry w = (Ok PyNone, logged_world env entry w).
Proof.
  unfold log_access_attempt, logged_world, insert_log.
  unfold try_except, mbind, M_bind, lift, get_world.
  destruct (insert_log_row env w entry); reflexivity.
Qed.

Lemma _parse_verification_response_total b data :
  ∃ r, _parse_verification_response b data = Ok r ∧ barcode r = b
       ∧ cached r = false.
Proof.
  unfold _parse_verification_response, try_pure.
  destruct data; eauto.
Qed.

Lemma verify_barcode_eq env b w :
  verify_barcode env b w = remote_view env b w.
Proof.
  unfold verify_barcode, remote_view, note_remote_call, _get_client,
    client_post, called_world, post_view.
  munfold.
  destruct (bool_decide (type config ≠ "http")
            || bool_decide (base_url (http config) = "")); [reflexivity|].
  destruct HTTP_AVAILABLE; cbn; [|reflexivity].
  destruct (_client w); cbn.
  - destruct (post env) as [e|st body]; cbn; [reflexivity|].
    destruct (bool_decide (st = 200)); cbn.
    + destruct body as [data|e]; cbn; [|reflexivity].
      destruct (_parse_verification_response_total b data) as (r & -> & _).
      reflexivity.
    + destruct (bool_decide (st = 404)); reflexivity.
  - destruct (client_init_raises env); cbn; [reflexivity|].
    destruct (post env) as [e|st body]; cbn; [reflexivity|].
    destruct (bool_decide (st = 200)); cbn.
    + destruct body as [data|e]; cbn; [|reflexivity].
      destruct (_parse_verification_response_total b data) as (r & -> & _).
      reflexivity.
    + destruct (bool_decide (st = 404)); reflexivity.
Qed.

Lemma verify_access_eq env b source w :
  verify_access env b source w = access_view env b source w.
Proof.
  unfold verify_access, access_view, try_except, mbind, M_bind.
  rewrite get_cached_access_eq.
  destruct (cache_view env b w) as [r|].
  - unfold mret, M_ret. rewrite log_access_attempt_eq. reflexivity.
  - rewrite verify_barcode_eq.
    destruct (remote_view env b w) as [[[r|]|e] w1].
    + rewrite cache_access_result_eq. unfold mret, M_ret.
      rewrite log_access_attempt_eq. reflexivity.
    + unfold mret, M_ret. rewrite log_access_attempt_eq. reflexivity.
    + rewrite log_access_attempt_eq. reflexivity.
Qed.

(** ** What each step leaves untouched *)

Lemma logged_world_cache env entry w :
  access_cache (logged_world env entry w) = access_cache w.
Proof.
  unfold logged_world. destruct (insert_log_row env w entry); reflexivity.
Qed.

Lemma logged_world_calls env entry w :
  remote_calls (logged_world env entry w) = remote_calls w.
Proof.
  unfold logged_world. destruct (insert_log_row env w entry); reflexivity.
Qed.

Lemma cached_world_logs env r w :
  access_logs (cached_world env r w) = access_logs w.
Proof. unfold cached_world. destruct (cache_row env r); reflexivity. Qed.

Lemma cached_world_seq env r w :
  access_logs_seq (cached_world env r w) = access_logs_seq w.
Proof. unfold cached_world. destruct (cache_row env r); reflexivity. Qed.

Lemma cached_world_calls env r w :
  remote_calls (cached_world env r w) = remote_calls w.
Proof. unfold cached_world. destruct (cache_row env r); reflexivity. Qed.

(** ** What the INSERTs store *)

Lemma cache_row_Ok env r row :
  cache_row env r = Ok row →
  insert_cache_raises env = None ∧
  text_column (sqlite env) (user_id r) = Ok (row_user_id row) ∧
  text_column (sqlite env) (user_name r) = Ok (row_user_name row) ∧
  numeric_column (sqlite env) (granted r) = Ok (row_granted row) ∧
  row_permissions row = py_or (permissions r) (PyList []) ∧
  row_expires_at row = expires_at r ∧
  row_cached_at row = current_timestamp env.
Proof.
  unfold cache_row, insert_cache_row, raise_if, mbind, mret, Exc_bind, Exc_ret.
  intros H.
  destruct (insert_cache_raises env); [discriminate|].
  destruct (text_column _ (user_id r)); [|discriminate].
  destruct (text_column _ (user_name r)); [|discriminate].
  destruct (numeric_column _ (granted r)); [|discriminate].
  injection H as <-. cbn. auto 10.
Qed.

Lemma insert_log_row_Ok env w entry row :
  insert_log_row env w entry = Ok row →
  insert_log_raises env = None ∧
  rowids_exhausted w = false ∧
  log_id row = Some (next_rowid w) ∧
  log_timestamp row = log_timestamp entry ∧
  log_barcode row = log_barcode entry ∧
  log_source row = log_source entry ∧
  numeric_column (sqlite env) (log_granted entry) = Ok (log_granted row) ∧
  text_column (sqlite env) (log_user_id entry) = Ok (log_user_id row) ∧
  text_column (sqlite env) (log_user_name entry) = Ok (log_user_name row) ∧
  text_column (sqlite env) (log_reason entry) = Ok (log_reason row).
Proof.
  unfold insert_log_row, raise_if, mbind, mret, Exc_bind, Exc_ret.
  intros H.
  destruct (insert_log_raises env); [discriminate|].
  destruct (numeric_column _ (log_granted entry)); [|discriminate].
  destruct (text_column _ (log_user_id entry)); [|discriminate].
  destruct (text_column _ (log_user_name entry)); [|discriminate].
  destruct (text_column _ (log_reason entry)); [|discriminate].
  destruct (rowids_exhausted w); [discriminate|].
  injection H as <-. cbn. auto 12.
Qed.

(** The INSERT looks at the audit table and its counter only. *)
Lemma insert_log_row_ext env w1 w2 entry :
  access_logs w1 = access_logs w2 →
  access_logs_seq w1 = access_logs_seq w2 →
  insert_log_row env w1 entry = insert_log_row env w2 entry.
Proof.
  unfold insert_log_row, rowids_exhausted, next_rowid.
  intros -> ->. reflexivity.
Qed.

Lemma last_rowid_ge logs e :
  e ∈ logs → ∃ m, last_rowid logs = Some m ∧ (rowid e ≤ m)%Z.
Proof.
  induction logs as [|x logs IH]; intros He.
  { by apply elem_of_nil in He. }
  cbn [last_rowid]. apply elem_of_cons in He as [->|He].
  - eexists. split; [reflexivity|]. destruct (last_rowid logs); lia.
  - destruct (IH He) as (m & -> & Hm). eexists. split; [reflexivity|]. lia.
Qed.

(** A new id is larger than the counter and than every id in the table. *)
Lemma next_rowid_above w :
  (access_logs_seq w < next_rowid w)%Z ∧
  ∀ e, e ∈ access_logs w → (rowid e < next_rowid w)%Z.
Proof.
  unfold next_rowid. split; [lia|].
  intros e He. destruct (last_rowid_ge _ _ He) as (m & -> & Hm). lia.
Qed.

(** What [log_access_attempt] does to the audit table and its counter. *)
Lemma logged_world_inv env entry w :
  (access_logs (logged_world env entry w) = access_logs w ∧
   access_logs_seq (logged_world env entry w) = access_logs_seq w ∧
   ∃ e, insert_log_row env w entry = Raise e)
  ∨ ∃ row,
      insert_log_row env w entry = Ok row ∧
      access_logs (logged_world env entry w) = access_logs w ++ [row] ∧
      access_logs_seq (logged_world env entry w) = next_rowid w.
Proof.
  unfold logged_world.
  destruct (insert_log_row env w entry) as [row|e]; [right|left]; eauto.
Qed.

(** The decimal text of an integer is not empty. *)
Lemma pretty_N_go_length x s :
  (String.length s ≤ String.length (pretty_N_go x s))%nat.
Proof.
  revert s. induction (N.lt_wf_0 x) as [x _ IH]; intros s.
  destruct (decide (x = 0)%N) as [->|Hx]; [by rewrite pretty_N_go_0|].
  rewrite pretty_N_go_step by lia.
  etrans; [|apply IH, N.div_lt; lia]. cbn. lia.
Qed.

Lemma pretty_Z_truthy (n : Z) : truthy (PyStr (pretty n)) = true.
Proof.
  assert (H : ∀ p : positive, pretty (N.pos p) ≠ "").
  { intros p. unfold pretty, pretty_N.
    rewrite decide_False by done. rewrite pretty_N_go_step by lia.
    intros Hp. pose proof (pretty_N_go_length (N.pos p `div` 10)
      (String (pretty_N_char (N.pos p `mod` 10)) "")) as Hl.
    rewrite Hp in Hl. cbn in Hl. lia. }
  destruct n as [|p|p]; cbn; [reflexivity| |reflexivity].
  specialize (H p). unfold pretty, pretty_positive.
  by destruct (pretty (N.pos p)).
Qed.

Lemma remote_view_cache env b w :
  access_cache (remote_view env b w).2 = access_cache w.
Proof.
  unfold remote_view.
  repeat (case_match; try reflexivity).
Qed.

Lemma remote_view_logs env b w :
  access_logs (remote_view env b w).2 = access_logs w.
Proof.
  unfold remote_view.
  repeat (case_match; try reflexivity).
Qed.

Lemma remote_view_seq env b w :
  access_logs_seq (remote_view env b w).2 = access_logs_seq w.
Proof.
  unfold remote_view.
  repeat (case_match; try reflexivity).
Qed.

Lemma remote_view_calls env b w :
  remote_calls (remote_view env b w).2 = remote_calls w ++ [b].
Proof.
  unfold remote_view.
  repeat (case_match; try reflexivity).
Qed.

Lemma post_view_barcode env b r :
  post_view env b = Some r → barcode r = b ∧ cached r = false.
Proof.
  unfold post_view. intros H.
  destruct (post env) as [e|st body]; [discriminate|].
  destruct (bool_decide (st = 200)).
  - destruct body as [data|e]; [|discriminate].
    destruct (_parse_verification_response_total b data) as (r' & Hp & Hb & Hc).
    rewrite Hp in H. injection H as <-. auto.
  - destruct (bool_decide (st = 404)); [|discriminate].
    injection H as <-. auto.
Qed.

Lemma remote_view_barcode env b w r :
  (remote_view env b w).1 = Ok (Some r) → barcode r = b ∧ cached r = false.
Proof.
  unfold remote_view. intros H.
  repeat (case_match; cbn in H; try discriminate);
    injection H as H; eauto using post_view_barcode.
Qed.

Lemma cache_view_barcode env b w r :
  cache_view env b w = Some r → barcode r = b ∧ cached r = true ∧ reason r = PyNone.
Proof.
  unfold cache_view. intros H.
  repeat (case_match; try discriminate). injection H as <-. auto.
Qed.

(** After a call that missed the cache, the remote verifier has been asked
    once more. *)
Lemma access_view_calls_miss env b source w :
  cache_view env b w = None →
  remote_calls (access_view env b source w).2 = remote_calls w ++ [b].
Proof.
  intros Hmiss. unfold access_view. rewrite Hmiss.
  pose proof (remote_view_calls env b w) as Hc.
  destruct (remote_view env b w) as [[[r|]|e] w1]; cbn in *;
    rewrite logged_world_calls, ?cached_world_calls; exact Hc.
Qed.

(** A row that is stale at one clock reading is stale at every later one. *)
Lemma cache_view_miss_later env env2 b w :
  select_raises env = None →
  cache_view env b w = None →
  (now env ≤ now env2)%Z →
  cache_view env2 b w = None.
Proof.
  unfold cache_view. intros -> Hmiss Hle.
  destruct (select_raises env2); [reflexivity|].
  destruct (access_cache w !! b) as [row|]; [|reflexivity].
  destruct (bool_decide_reflect (now env - row_cached_at row < 3600));
    [discriminate|].
  rewrite bool_decide_eq_false_2; [reflexivity|lia].
Qed.

Lemma cache_view_ext env b w1 w2 :
  access_cache w1 = access_cache w2 → cache_view env b w1 = cache_view env b w2.
Proof. unfold cache_view. intros ->. reflexivity. Qed.

(** A row just written is served while it is less than an hour old. *)
Lemma cache_view_fresh env env2 b r row w :
  cache_row env r = Ok row →
  access_cache w !! b = Some row →
  select_raises env2 = None →
  (now env2 - current_timestamp env < 3600)%Z →
  cache_view env2 b w =
    Some {| granted := row_granted row; barcode := b;
            user_id := row_user_id row; user_name := row_user_name row;
            reason := PyNone; expires_at := expires_at r;
            permissions := py_or (permissions r) (PyList []);
            cached := true |}.
Proof.
  intros Hrow Hb Hsel Hage.
  destruct (cache_row_Ok env r row Hrow) as (_ & _ & _ & _ & Hp & He & Hc).
  unfold cache_view. rewrite Hsel, Hb, Hc, Hp, He.
  rewrite bool_decide_eq_true_2; [reflexivity|exact Hage].
Qed.

(** The row that a successful cache write leaves for the barcode. *)
Lemma cached_world_lookup env r row w :
  cache_row env r = Ok row →
  access_cache (cached_world env r w) !! barcode r = Some row.
Proof.
  intros Hrow. unfold cached_world. rewrite Hrow. cbn.
  apply lookup_insert_eq.
Qed.

(** A call served from the cache does not ask the remote verifier. *)
Lemma access_view_hit env b source w r :
  cache_view env b w = Some r →
  (access_view env b source w).1 = Ok r ∧
  remote_calls (access_view env b source w).2 = remote_calls w ∧
  access_cache (access_view env b source w).2 = access_cache w.
Proof.
  intros Hhit. unfold access_view. rewrite Hhit. cbn.
  rewrite logged_world_calls, logged_world_cache. auto.
Qed.

(** With the remote configured and a client at hand, [verify_barcode]
    returns what the POST gives. *)
Lemma remote_view_configured env b w :
  type config = "http" →
  base_url (http config) ≠ "" →
  HTTP_AVAILABLE = true →
  (_client w = false → client_init_raises env = None) →
  (remote_view env b w).1 = Ok (post_view env b).
Proof.
  intros Ht Hu Ha Hc. unfold remote_view.
  rewrite (bool_decide_eq_false_2 (type config ≠ "http")) by (intros H; exact (H Ht)).
  rewrite (bool_decide_eq_false_2 _ Hu), Ha. cbn.
  destruct (_client w); [reflexivity|].
  rewrite (Hc eq_refl). reflexivity.
Qed.

(** When the client set-up does not raise, [verify_barcode] does not. *)
Lemma remote_view_no_raise env b w :
  (_client w = false → client_init_raises env = None) →
  ∃ o, (remote_view env b w).1 = Ok o ∧ (o = None ∨ o = post_view env b).
Proof.
  intros Hc. unfold remote_view.
  repeat (case_match; cbn; eauto).
  specialize (Hc eq_refl). discriminate.
Qed.

(** ** The sweep, as equations *)

Lemma cleanup_old_cache_eq env h w :
  cleanup_old_cache env h w = (Ok PyNone, swept_world env h w).
Proof.
  unfold cleanup_old_cache, swept_world, cleanup_cutoff, delete_cache_before.
  munfold. unfold Exc_bind.
  destruct (timedelta_hours h) as [delta|e]; cbn; [|reflexivity].
  destruct (datetime_sub (now env) delta) as [cutoff|e]; cbn; [|reflexivity].
  destruct (delete_raises env); reflexivity.
Qed.

Lemma cleanup_cutoff_Ok env h c :
  cleanup_cutoff env h = Ok c → c = (now env - h * 3600)%Z.
Proof.
  unfold cleanup_cutoff, timedelta_hours, datetime_sub, mbind, Exc_bind.
  intros H. repeat (case_match; try discriminate). congruence.
Qed.

Lemma cleanup_cutoff_in_range env h :
  (- 999999999 * 24 ≤ h ≤ 999999999 * 24 + 23)%Z →
  (datetime_min ≤ now env - h * 3600 ≤ datetime_max)%Z →
  cleanup_cutoff env h = Ok (now env - h * 3600)%Z.
Proof.
  intros Hh Hc.
  unfold cleanup_cutoff, timedelta_hours, datetime_sub, mbind, Exc_bind.
  rewrite !bool_decide_eq_true_2 by lia. cbn [andb].
  rewrite !bool_decide_eq_true_2 by lia. reflexivity.
Qed.

Lemma swept_world_logs env h w :
  access_logs (swept_world env h w) = access_logs w ∧
  access_logs_seq (swept_world env h w) = access_logs_seq w.
Proof. unfold swept_world. repeat case_match; auto. Qed.

(** ** The claims *)

(** C1 (amended). When [verify_barcode] yields no result on a cache miss,
    [verify_access] returns the fallback deny: [granted = False],
    [cached = False] and reason "Remote verification unavailable" (with a
    capital R). The cache table is left as it was and the remote verifier
    has been asked once. A later call, at a clock reading that is not
    earlier, asks the remote verifier again, provided the miss of the first
    call was not due to a failed cache read. *)
Theorem C1_unavailable_is_fallback_deny env b source w :
  (get_cached_access env b w).1 = Ok None →
  (verify_barcode env b w).1 = Ok None →
  ∃ w',
    verify_access env b source w =
      (Ok {| granted := PyBool false; barcode := b; user_id := PyNone;
             user_name := PyNone;
             reason := PyStr "Remote verification unavailable";
             expires_at := None; permissions := PyNone; cached := false |},
       w') ∧
    access_cache w' = access_cache w ∧
    remote_calls w' = remote_calls w ++ [b] ∧
    (select_raises env = None →
     ∀ env2 source2, (now env ≤ now env2)%Z →
       remote_calls (verify_access env2 b source2 w').2
       = remote_calls w' ++ [b]).
Proof.
  rewrite get_cached_access_eq, verify_barcode_eq. cbn [fst].
  intros [= Hmiss] Hnone.
  pose proof (remote_view_cache env b w) as Hcache.
  pose proof (remote_view_calls env b w) as Hcalls.
  rewrite verify_access_eq. unfold access_view. rewrite Hmiss.
  destruct (remote_view env b w) as [o w1]. cbn in Hnone, Hcache, Hcalls.
  subst o. eexists. split; [reflexivity|].
  split; [by rewrite logged_world_cache|].
  split; [by rewrite logged_world_calls|].
  intros Hread env2 source2 Hle.
  rewrite verify_access_eq.
  apply access_view_calls_miss.
  rewrite (cache_view_ext env2 b _ w)
    by (rewrite logged_world_cache; exact Hcache).
  by apply (cache_view_miss_later env).
Qed.

(** C2 (amended). When the authority answers 404 on a cache miss,
    [verify_access] returns [granted = False], [cached = False] and reason
    "Barcode not found in database", which contains "not found". This
    result is written to the cache like any other remote answer: when the
    write succeeds, a repeated call whose clock reads less than an hour past
    the [cached_at] stamp of the row, and whose cache read succeeds, is
    served from the cache ([cached = True], reason [None], and [granted]
    the integer 0, which is how the BOOLEAN column gives the [False] back)
    and the remote verifier is not asked again. *)
Theorem C2_not_found_is_denied_and_cached env b source w body :
  (get_cached_access env b w).1 = Ok None →
  type config = "http" →
  base_url (http config) ≠ "" →
  HTTP_AVAILABLE = true →
  (_client w = false → client_init_raises env = None) →
  post env = Response 404 body →
  ∃ w',
    verify_access env b source w =
      (Ok {| granted := PyBool false; barcode := b; user_id := PyNone;
             user_name := PyNone;
             reason := PyStr ("Barcode " +:+ "not found" +:+ " in database");
             expires_at := None; permissions := PyNone; cached := false |},
       w') ∧
    remote_calls w' = remote_calls w ++ [b] ∧
    (insert_cache_raises env = None →
     ∀ env2 source2,
       select_raises env2 = None →
       (now env2 - current_timestamp env < 3600)%Z →
       ∃ w'',
         verify_access env2 b source2 w' =
           (Ok {| granted := PyInt 0; barcode := b; user_id := PyNone;
                  user_name := PyNone; reason := PyNone; expires_at := None;
                  permissions := PyList []; cached := true |},
            w'') ∧
         remote_calls w'' = remote_calls w').
Proof.
  rewrite get_cached_access_eq. cbn [fst].
  intros [= Hmiss] Ht Hu Ha Hc Hpost.
  pose proof (remote_view_configured env b w Ht Hu Ha Hc) as Hr.
  pose proof (remote_view_cache env b w) as Hcache.
  pose proof (remote_view_calls env b w) as Hcalls.
  assert (Hpv : post_view env b =
                Some (AccessResult_deny b "Barcode not found in database")).
  { unfold post_view. rewrite Hpost.
    rewrite bool_decide_eq_false_2 by lia.
    rewrite bool_decide_eq_true_2 by lia. reflexivity. }
  rewrite Hpv in Hr.
  rewrite verify_access_eq. unfold access_view. rewrite Hmiss.
  destruct (remote_view env b w) as [o w1]. cbn in Hr, Hcache, Hcalls.
  subst o. eexists. split; [reflexivity|].
  split; [by rewrite logged_world_calls, cached_world_calls|].
  intros Hins env2 source2 Hread Hage.
  set (w' := logged_world env _ _).
  assert (Hrow :
    cache_row env (AccessResult_deny b "Barcode not found in database") =
      Ok {| row_user_id := PyNone; row_user_name := PyNone;
            row_granted := PyInt 0; row_permissions := PyList [];
            row_expires_at := None;
            row_cached_at := current_timestamp env |}).
  { unfold cache_row, insert_cache_row. rewrite Hins. reflexivity. }
  assert (Hfresh : cache_view env2 b w' =
    Some {| granted := PyInt 0; barcode := b; user_id := PyNone;
            user_name := PyNone; reason := PyNone; expires_at := None;
            permissions := PyList []; cached := true |}).
  { rewrite (cache_view_fresh env env2 b _ _ w' Hrow);
      [reflexivity| |exact Hread|exact Hage].
    subst w'. rewrite logged_world_cache.
    apply (cached_world_lookup env _ _ w1 Hrow). }
  destruct (access_view_hit env2 b source2 w' _ Hfresh) as (H1 & H2 & _).
  rewrite verify_access_eq.
  destruct (access_view env2 b source2 w') as [x w'']. cbn in H1, H2.
  subst x. eexists. split; [reflexivity|exact H2].
Qed.

(** C3 (amended). Every call of [verify_access] makes one attempt to
    write an audit row, and returns its result whether or not the attempt
    succeeds. The attempt carries the barcode, the source given by the
    caller and the granted, user_id and user_name of the result. Its reason
    is the reason of the result when that is truthy, else "Access granted"
    or "Access denied" after [granted] (so on every cache hit, where the
    result has no reason); in the handler of [verify_access] it is
    "Verification error: " followed by the text of the exception, while the
    result says "Verification error". When the INSERT raises (the database
    fails, a value cannot be bound, the ids are used up) no row is added.
    Otherwise exactly one row is appended: its id is new, larger than every
    id in the table and than every id given before; it holds the clock
    reading, the barcode and the source; and it holds granted, user_id,
    user_name and reason as their columns store them, which for [True] and
    [False] is 1 and 0. *)
Theorem C3_one_audit_write_per_call env b source w :
  ∃ r w' attempt,
    verify_access env b source w = (Ok r, w') ∧
    log_timestamp attempt = now env ∧
    log_barcode attempt = b ∧
    log_source attempt = source ∧
    log_granted attempt = granted r ∧
    log_user_id attempt = user_id r ∧
    log_user_name attempt = user_name r ∧
    (log_reason attempt =
       py_or (reason r)
         (PyStr (if truthy (granted r) then "Access granted"
                 else "Access denied"))
     ∨ ∃ e, (verify_barcode env b w).1 = Raise e
            ∧ reason r = PyStr "Verification error"
            ∧ log_reason attempt = PyStr ("Verification error: " +:+ e)) ∧
    match insert_log_row env w attempt with
    | Raise _ => access_logs w' = access_logs w
    | Ok row =>
        access_logs w' = access_logs w ++ [row] ∧
        (∃ i, log_id row = Some i
              ∧ (access_logs_seq w < i)%Z
              ∧ ∀ e, e ∈ access_logs w → (rowid e < i)%Z) ∧
        log_timestamp row = now env ∧
        log_barcode row = b ∧
        log_source row = source ∧
        numeric_column (sqlite env) (granted r) = Ok (log_granted row) ∧
        text_column (sqlite env) (user_id r) = Ok (log_user_id row) ∧
        text_column (sqlite env) (user_name r) = Ok (log_user_name row) ∧
        text_column (sqlite env) (log_reason attempt) = Ok (log_reason row) ∧
        (∀ g, granted r = PyBool g →
              log_granted row = PyInt (if g then 1 else 0))
    end.
Proof.
  assert (Hlw : ∀ r attempt w1,
    access_logs w1 = access_logs w →
    access_logs_seq w1 = access_logs_seq w →
    log_timestamp attempt = now env →
    log_barcode attempt = b →
    log_source attempt = source →
    log_granted attempt = granted r →
    log_user_id attempt = user_id r →
    log_user_name attempt = user_name r →
    match insert_log_row env w attempt with
    | Raise _ => access_logs (logged_world env attempt w1) = access_logs w
    | Ok row =>
        access_logs (logged_world env attempt w1) = access_logs w ++ [row] ∧
        (∃ i, log_id row = Some i
              ∧ (access_logs_seq w < i)%Z
              ∧ ∀ e, e ∈ access_logs w → (rowid e < i)%Z) ∧
        log_timestamp row = now env ∧
        log_barcode row = b ∧
        log_source row = source ∧
        numeric_column (sqlite env) (granted r) = Ok (log_granted row) ∧
        text_column (sqlite env) (user_id r) = Ok (log_user_id row) ∧
        text_column (sqlite env) (user_name r) = Ok (log_user_name row) ∧
        text_column (sqlite env) (log_reason attempt) = Ok (log_reason row) ∧
        (∀ g, granted r = PyBool g →
              log_granted row = PyInt (if g then 1 else 0))
    end).
  { intros r attempt w1 Hl Hs Ht Hb Hsrc Hg Hu Hn.
    unfold logged_world.
    rewrite (insert_log_row_ext env w1 w attempt Hl Hs).
    destruct (insert_log_row env w attempt) as [row|e] eqn:Hrow;
      [|exact Hl].
    destruct (insert_log_row_Ok env w attempt row Hrow)
      as (_ & _ & Hid & Ht' & Hb' & Hs' & Hg' & Hu' & Hn' & Hr').
    destruct (next_rowid_above w) as [Hseq Hids].
    cbn [access_logs]. rewrite Hl.
    split; [reflexivity|]. split; [eauto|].
    rewrite <- Hg, <- Hu, <- Hn, <- Ht, <- Hb, <- Hsrc.
    repeat (split; [assumption|]).
    intros g Hbool. rewrite Hbool in Hg'. cbn in Hg'. congruence. }
  rewrite verify_access_eq, verify_barcode_eq. unfold access_view.
  destruct (cache_view env b w) as [r|].
  - exists r, (logged_world env (verify_access_log_entry env b source r) w),
      (verify_access_log_entry env b source r).
    split; [reflexivity|]. cbn [verify_access_log_entry log_timestamp
      log_barcode log_source log_granted log_user_id log_user_name log_reason].
    do 6 (split; [reflexivity|]). split; [by left|].
    by apply Hlw.
  - pose proof (remote_view_logs env b w) as Hlogs.
    pose proof (remote_view_seq env b w) as Hseq.
    destruct (remote_view env b w) as [[[r|]|e] w1]; cbn [fst snd] in *.
    + exists r, (logged_world env (verify_access_log_entry env b source r)
                   (cached_world env r w1)),
        (verify_access_log_entry env b source r).
      split; [reflexivity|]. cbn [verify_access_log_entry log_timestamp
        log_barcode log_source log_granted log_user_id log_user_name
        log_reason].
      do 6 (split; [reflexivity|]). split; [by left|].
      apply Hlw; try reflexivity.
      * by rewrite cached_world_logs.
      * by rewrite cached_world_seq.
    + exists (fallback_result b),
        (logged_world env
           (verify_access_log_entry env b source (fallback_result b)) w1),
        (verify_access_log_entry env b source (fallback_result b)).
      split; [reflexivity|].
      do 6 (split; [reflexivity|]). split; [by left|].
      by apply Hlw.
    + exists (AccessResult_deny b "Verification error"),
        (logged_world env (error_log_entry env b source e) w1),
        (error_log_entry env b source e).
      split; [reflexivity|].
      do 6 (split; [reflexivity|]). split; [right; eauto|].
      by apply Hlw.
Qed.

(** C4 (amended). [verify_access] never raises: whatever the cache read,
    the client set-up, the POST, the cache write and the audit write do, it
    returns an [AccessResult] for the barcode asked. A failed cache read
    counts as a miss, and a failing cache write and a failing audit write
    are swallowed: none of the three turns the result into a deny, the
    result is what it would have been, a grant included. The result is the
    fresh cache row (which has no reason, and the [granted] that the table
    gives back), or else the answer of the remote verifier (with whatever
    [granted] and reason the authority sent), or else a deny with a reason:
    "Remote verification unavailable" when the remote verifier yields
    nothing, "Verification error" when an exception reached the handler. *)
Theorem C4_verify_access_never_raises env b source w :
  ∃ r w',
    verify_access env b source w = (Ok r, w') ∧
    barcode r = b ∧
    ((get_cached_access env b w).1 = Ok (Some r)
     ∨ ((get_cached_access env b w).1 = Ok None
        ∧ (verify_barcode env b w).1 = Ok (Some r))
     ∨ ((get_cached_access env b w).1 = Ok None
        ∧ (verify_barcode env b w).1 = Ok None
        ∧ r = AccessResult_deny b "Remote verification unavailable")
     ∨ ((get_cached_access env b w).1 = Ok None
        ∧ (∃ e, (verify_barcode env b w).1 = Raise e)
        ∧ r = AccessResult_deny b "Verification error")) ∧
    (select_raises env ≠ None → (get_cached_access env b w).1 = Ok None) ∧
    (∀ e, (verify_access (with_cache_failure e env) b source w).1 = Ok r) ∧
    (∀ e, (verify_access (with_log_failure e env) b source w).1 = Ok r).
Proof.
  assert (Hlog : ∀ e,
    (access_view (with_log_failure e env) b source w).1
    = (access_view env b source w).1).
  { intros e. unfold access_view.
    change (cache_view (with_log_failure e env) b w) with (cache_view env b w).
    change (remote_view (with_log_failure e env) b w)
      with (remote_view env b w).
    destruct (cache_view env b w); [reflexivity|].
    destruct (remote_view env b w) as [[[r|]|e'] w1]; reflexivity. }
  assert (Hcache : ∀ e,
    (access_view (with_cache_failure e env) b source w).1
    = (access_view env b source w).1).
  { intros e. unfold access_view.
    change (cache_view (with_cache_failure e env) b w)
      with (cache_view env b w).
    change (remote_view (with_cache_failure e env) b w)
      with (remote_view env b w).
    destruct (cache_view env b w); [reflexivity|].
    destruct (remote_view env b w) as [[[r|]|e'] w1]; reflexivity. }
  assert (Hread : select_raises env ≠ None → cache_view env b w = None).
  { unfold cache_view. destruct (select_raises env); [reflexivity|].
    intros H. by destruct H. }
  assert (Hmain : ∃ r w',
    access_view env b source w = (Ok r, w') ∧
    barcode r = b ∧
    (cache_view env b w = Some r
     ∨ (cache_view env b w = None
        ∧ (remote_view env b w).1 = Ok (Some r))
     ∨ (cache_view env b w = None
        ∧ (remote_view env b w).1 = Ok None
        ∧ r = AccessResult_deny b "Remote verification unavailable")
     ∨ (cache_view env b w = None
        ∧ (∃ e, (remote_view env b w).1 = Raise e)
        ∧ r = AccessResult_deny b "Verification error"))).
  { unfold access_view.
    destruct (cache_view env b w) as [r|] eqn:Hc.
    - apply cache_view_barcode in Hc as (Hb & _).
      eexists _, _. split; [reflexivity|]. split; [exact Hb|]. by left.
    - destruct (remote_view env b w) as [[[r|]|e] w1] eqn:Hr; cbn [fst].
      + pose proof (remote_view_barcode env b w r) as Hb.
        rewrite Hr in Hb. destruct (Hb eq_refl) as (Hb' & _).
        eexists _, _. split; [reflexivity|]. split; [exact Hb'|].
        right; left. auto.
      + eexists _, _. split; [reflexivity|]. split; [reflexivity|].
        right; right; left. auto.
      + eexists _, _. split; [reflexivity|]. split; [reflexivity|].
        right; right; right. eauto. }
  destruct Hmain as (r & w' & Heq & Hb & Hcases).
  exists r, w'. rewrite verify_access_eq, get_cached_access_eq,
    verify_barcode_eq. cbn [fst].
  split; [exact Heq|]. split; [exact Hb|]. split.
  { destruct Hcases as [H|[[H1 H2]|[(H1 & H2 & H3)|(H1 & H2 & H3)]]].
    - left. by rewrite H.
    - right; left. by rewrite H1.
    - right; right; left. by rewrite H1.
    - right; right; right. by rewrite H1. }
  split; [intros H; by rewrite (Hread H)|].
  split; intros e; rewrite verify_access_eq.
  - rewrite Hcache, Heq. reflexivity.
  - rewrite Hlog, Heq. reflexivity.
Qed.

(** C5. A cache row whose [cached_at] is one hour old or older is a miss
    for [get_cached_access], whatever its [expires_at] says (a remote expiry
    in the future included), and [verify_access] then asks the remote
    verifier. *)
Theorem C5_stale_row_is_a_miss env b source w row :
  access_cache w !! b = Some row →
  (3600 ≤ now env - row_cached_at row)%Z →
  get_cached_access env b w = (Ok None, w) ∧
  remote_calls (verify_access env b source w).2 = remote_calls w ++ [b].
Proof.
  intros Hrow Hold.
  assert (Hmiss : cache_view env b w = None).
  { unfold cache_view. destruct (select_raises env); [reflexivity|].
    rewrite Hrow, bool_decide_eq_false_2; [reflexivity|lia]. }
  rewrite get_cached_access_eq, verify_access_eq, Hmiss.
  split; [reflexivity|]. by apply access_view_calls_miss.
Qed.

(** C6 (amended). When the POST raises, or the body of a 200 response is
    not JSON, or the status is neither 200 nor 404 (so for every status
    outside 2xx other than 404), [verify_barcode] returns [None]: the
    outcome is no grant and no explicit deny, [verify_access] leaves the
    cache table as it was and, on a cache miss, returns the fallback deny.
    A 200 body that is JSON but not an object is different: it is answered
    with the explicit deny "Invalid response format", and that result is
    written to the cache like any other remote answer (its [False] is
    stored as 0). *)
Theorem C6_unavailable_outcomes_are_not_cached env b source w :
  (_client w = false → client_init_raises env = None) →
  (((∃ e, post env = PostRaises e)
    ∨ (∃ e, post env = Response 200 (Raise e))
    ∨ (∃ st body, post env = Response st body ∧ st ≠ 200%Z ∧ st ≠ 404%Z)) →
   (verify_barcode env b w).1 = Ok None ∧
   access_cache (verify_access env b source w).2 = access_cache w ∧
   ((get_cached_access env b w).1 = Ok None →
    (verify_access env b source w).1 = Ok (fallback_result b))) ∧
  (∀ data,
     post env = Response 200 (Ok data) →
     is_dict data = false →
     type config = "http" →
     base_url (http config) ≠ "" →
     HTTP_AVAILABLE = true →
     (verify_barcode env b w).1 =
       Ok (Some {| granted := PyBool false; barcode := b; user_id := PyNone;
                   user_name := PyNone;
                   reason := PyStr "Invalid response format";
                   expires_at := None; permissions := PyNone;
                   cached := false |}) ∧
     ((get_cached_access env b w).1 = Ok None →
      insert_cache_raises env = None →
      access_cache (verify_access env b source w).2 !! b =
        Some {| row_user_id := PyNone; row_user_name := PyNone;
                row_granted := PyInt 0; row_permissions := PyList [];
                row_expires_at := None;
                row_cached_at := current_timestamp env |})).
Proof.
  intros Hc.
  rewrite !verify_access_eq, !verify_barcode_eq, !get_cached_access_eq.
  pose proof (remote_view_cache env b w) as Hcache.
  split.
  - intros Hpost.
    assert (Hpv : post_view env b = None).
    { unfold post_view.
      destruct Hpost as [[e ->]|[[e ->]|(st & body & -> & H2 & H4)]].
      - reflexivity.
      - reflexivity.
      - rewrite !bool_decide_eq_false_2 by assumption. reflexivity. }
    destruct (remote_view_no_raise env b w Hc) as (o & Hr & Ho).
    assert (o = None) as -> by (destruct Ho; congruence).
    split; [exact Hr|].
    unfold access_view.
    destruct (cache_view env b w) as [r|]; cbn [fst snd].
    + rewrite logged_world_cache. split; [reflexivity|discriminate].
    + destruct (remote_view env b w) as [x w1]. cbn in Hr, Hcache. subst x.
      cbn [fst snd]. rewrite logged_world_cache. auto.
  - intros data Hpost Hnd Ht Hu Ha.
    pose proof (remote_view_configured env b w Ht Hu Ha Hc) as Hr.
    assert (Hpv : post_view env b =
                  Some (AccessResult_deny b "Invalid response format")).
    { unfold post_view. rewrite Hpost. cbn.
      destruct data; try discriminate Hnd; reflexivity. }
    rewrite Hpv in Hr. split; [exact Hr|].
    cbn [fst]. intros [= Hmiss] Hins.
    unfold access_view. rewrite Hmiss.
    destruct (remote_view env b w) as [x w1]. cbn in Hr, Hcache. subst x.
    cbn [snd]. rewrite logged_world_cache.
    apply (cached_world_lookup env
             (AccessResult_deny b "Invalid response format")).
    unfold cache_row, insert_cache_row. rewrite Hins. reflexivity.
Qed.

(** C7 (amended). When a call of [verify_access] misses the cache, gets an
    answer from the remote verifier and the cache write succeeds, a second
    call for the same barcode whose clock reads less than an hour past the
    [cached_at] stamp of the row, and whose cache read succeeds, is served
    from the cache without asking the remote verifier: [cached = True].
    Its granted, user_id and user_name are those of the first result as the
    cache table stores them: granted went through a BOOLEAN column, so
    [True] and [False] come back as 1 and 0 and an [int] as it was; user_id
    and user_name went through TEXT columns, so [None] and strings come
    back as they were. Its reason is [None], not the reason of the first
    result: the cache table has no reason column. *)
Theorem C7_second_call_is_served_from_cache
    env1 env2 b source1 source2 w r1 row :
  (get_cached_access env1 b w).1 = Ok None →
  (verify_barcode env1 b w).1 = Ok (Some r1) →
  cache_row env1 r1 = Ok row →
  select_raises env2 = None →
  (now env2 - current_timestamp env1 < 3600)%Z →
  ∃ w1 r2 w2,
    verify_access env1 b source1 w = (Ok r1, w1) ∧
    access_cache w1 !! b = Some row ∧
    verify_access env2 b source2 w1 = (Ok r2, w2) ∧
    cached r1 = false ∧
    cached r2 = true ∧
    numeric_column (sqlite env1) (granted r1) = Ok (granted r2) ∧
    text_column (sqlite env1) (user_id r1) = Ok (user_id r2) ∧
    text_column (sqlite env1) (user_name r1) = Ok (user_name r2) ∧
    (∀ g, granted r1 = PyBool g → granted r2 = PyInt (if g then 1 else 0)) ∧
    (∀ n, granted r1 = PyInt n → granted r2 = PyInt n) ∧
    (user_id r1 = PyNone ∨ (∃ s, user_id r1 = PyStr s) →
     user_id r2 = user_id r1) ∧
    (user_name r1 = PyNone ∨ (∃ s, user_name r1 = PyStr s) →
     user_name r2 = user_name r1) ∧
    reason r2 = PyNone ∧
    remote_calls w2 = remote_calls w1.
Proof.
  rewrite get_cached_access_eq, verify_barcode_eq. cbn [fst].
  intros [= Hmiss] Hr Hrow Hread Hage.
  destruct (remote_view_barcode env1 b w r1 Hr) as (Hb & Hnc).
  destruct (cache_row_Ok env1 r1 row Hrow) as (_ & Hu & Hn & Hg & _).
  rewrite verify_access_eq. unfold access_view at 1. rewrite Hmiss.
  destruct (remote_view env1 b w) as [x w0]. cbn in Hr. subst x.
  set (w1 := logged_world env1 _ _).
  assert (Hlook : access_cache w1 !! b = Some row).
  { subst w1. rewrite logged_world_cache.
    pose proof (cached_world_lookup env1 r1 row w0 Hrow) as H.
    by rewrite Hb in H. }
  pose proof (cache_view_fresh env1 env2 b r1 row w1 Hrow Hlook Hread Hage)
    as Hfresh.
  destruct (access_view_hit env2 b source2 w1 _ Hfresh) as (H1 & H2 & _).
  exists w1. rewrite verify_access_eq.
  destruct (access_view env2 b source2 w1) as [x w2]. cbn in H1, H2.
  subst x. eexists _, _.
  cbn [granted user_id user_name reason cached].
  split; [reflexivity|]. split; [exact Hlook|]. split; [reflexivity|].
  split; [exact Hnc|]. split; [reflexivity|].
  split; [exact Hg|]. split; [exact Hu|]. split; [exact Hn|].
  split. { intros g Hbool. rewrite Hbool in Hg. cbn in Hg. cbn; congruence. }
  split. { intros n Hint. rewrite Hint in Hg. cbn in Hg.
           destruct (fits_int64 n); cbn; congruence. }
  split. { intros [Hnone|[s0 Hstr]].
           - rewrite Hnone in Hu |- *. cbn in Hu. cbn; congruence.
           - rewrite Hstr in Hu |- *. cbn in Hu. cbn; congruence. }
  split. { intros [Hnone|[s0 Hstr]].
           - rewrite Hnone in Hn |- *. cbn in Hn. cbn; congruence.
           - rewrite Hstr in Hn |- *. cbn in Hn. cbn; congruence. }
  split; [reflexivity|exact H2].
Qed.

(** C8 (amended). When [max_age_hours] is within the range of a
    [timedelta], the cutoff (the clock reading minus [max_age_hours]
    hours, 24 by default) is within the range of a [datetime] and the
    DELETE does not raise, [cleanup_old_cache] removes all and only the
    rows whose [cached_at] is before the cutoff and leaves every other row
    as it was. It returns nothing ([None]), not a count. *)
Theorem C8_cleanup_removes_old_rows env max_age_hours w :
  delete_raises env = None →
  (- 999999999 * 24 ≤ max_age_hours ≤ 999999999 * 24 + 23)%Z →
  (datetime_min ≤ now env - max_age_hours * 3600 ≤ datetime_max)%Z →
  ∃ w',
    cleanup_old_cache env max_age_hours w = (Ok PyNone, w') ∧
    (∀ b row,
       access_cache w' !! b = Some row ↔
       access_cache w !! b = Some row
       ∧ ¬ (row_cached_at row < now env - max_age_hours * 3600)%Z) ∧
    access_logs w' = access_logs w.
Proof.
  intros Hdel Hh Hc. rewrite cleanup_old_cache_eq. unfold swept_world.
  rewrite (cleanup_cutoff_in_range env max_age_hours Hh Hc), Hdel.
  eexists. split; [reflexivity|]. cbn.
  split; [|reflexivity].
  intros b row. apply map_lookup_filter_Some.
Qed.

(** C9. When the remote database is not configured (the type is not "http"
    or the base URL is empty), [verify_barcode] returns [None], so a call of
    [verify_access] that misses the cache returns the fallback deny, with
    reason "Remote verification unavailable". *)
Theorem C9_unconfigured_remote_denies env b source w :
  type config ≠ "http" ∨ base_url (http config) = "" →
  (get_cached_access env b w).1 = Ok None →
  (verify_barcode env b w).1 = Ok None ∧
  (verify_access env b source w).1 =
    Ok {| granted := PyBool false; barcode := b; user_id := PyNone;
          user_name := PyNone;
          reason := PyStr "Remote verification unavailable";
          expires_at := None; permissions := PyNone; cached := false |}.
Proof.
  intros Hcfg Hmiss.
  rewrite get_cached_access_eq in Hmiss. cbn in Hmiss.
  injection Hmiss as Hmiss.
  assert (Hr : remote_view env b w = (Ok None, called_world b w)).
  { unfold remote_view.
    destruct Hcfg as [Ht|Hu].
    - rewrite (bool_decide_eq_true_2 _ Ht). reflexivity.
    - rewrite (bool_decide_eq_true_2 _ Hu), orb_true_r. reflexivity. }
  rewrite verify_barcode_eq, verify_access_eq.
  unfold access_view. rewrite Hmiss, Hr. split; reflexivity.
Qed.

(** C10. A decoded body without the [access_granted] field is parsed to a
    result with [granted = False]: on a dict the default of [get] is
    [False], and a body that is no dict ends in the deny built by the
    handler. *)
Theorem C10_missing_grant_flag_is_deny b data :
  field_of data "access_granted" = None →
  ∃ r, _parse_verification_response b data = Ok r ∧ granted r = PyBool false.
Proof.
  intros Hmissing. unfold _parse_verification_response, try_pure.
  destruct data as [| | | | | |kv]; try (eexists; split; reflexivity).
  eexists. split; [reflexivity|]. cbn in *.
  unfold dict_get. rewrite Hmissing. reflexivity.
Qed.

(** ** Further properties: the cache table *)

(** X1. Round trip of the cache: a result that [cache_access_result]
    manages to write is read back by [get_cached_access] while the clock is
    less than an hour past the stamp of the row, with the same barcode and
    expires_at. Its granted, user_id and user_name are what their columns
    store: [True] and [False] come back as 1 and 0, [None] and strings as
    they were. What comes back is marked [cached], has lost its reason, and
    has [[]] for permissions that were [None] or empty. *)
Theorem cache_write_then_read_round_trip env env2 r row w :
  cache_row env r = Ok row →
  select_raises env2 = None →
  (now env2 - current_timestamp env < 3600)%Z →
  (get_cached_access env2 (barcode r) (cache_access_result env r w).2).1 =
    Ok (Some {| granted := row_granted row; barcode := barcode r;
                user_id := row_user_id row; user_name := row_user_name row;
                reason := PyNone; expires_at := expires_at r;
                permissions := py_or (permissions r) (PyList []);
                cached := true |}) ∧
  numeric_column (sqlite env) (granted r) = Ok (row_granted row) ∧
  text_column (sqlite env) (user_id r) = Ok (row_user_id row) ∧
  text_column (sqlite env) (user_name r) = Ok (row_user_name row) ∧
  (∀ g, granted r = PyBool g → row_granted row = PyInt (if g then 1 else 0)) ∧
  (user_id r = PyNone ∨ (∃ s, user_id r = PyStr s) →
   row_user_id row = user_id r) ∧
  (user_name r = PyNone ∨ (∃ s, user_name r = PyStr s) →
   row_user_name row = user_name r).
Proof.
  intros Hrow Hsel Hage.
  destruct (cache_row_Ok env r row Hrow) as (_ & Hu & Hn & Hg & _).
  split.
  { rewrite cache_access_result_eq, get_cached_access_eq. cbn [fst snd].
    f_equal. apply (cache_view_fresh env env2 _ r row); try assumption.
    by apply cached_world_lookup. }
  split; [exact Hg|]. split; [exact Hu|]. split; [exact Hn|].
  split. { intros g Hbool. rewrite Hbool in Hg. cbn in Hg. congruence. }
  split.
  - intros [Hnone|[s0 Hstr]].
    + rewrite Hnone in Hu |- *. cbn in Hu. congruence.
    + rewrite Hstr in Hu |- *. cbn in Hu. congruence.
  - intros [Hnone|[s0 Hstr]].
    + rewrite Hnone in Hn |- *. cbn in Hn. congruence.
    + rewrite Hstr in Hn |- *. cbn in Hn. congruence.
Qed.

(** X2. The cache keeps one row per barcode and the last write wins: after
    two writes for the same barcode, the second of which succeeds, the
    table is what the second write alone would have left. *)
Theorem cache_last_write_wins env1 env2 r1 r2 row w :
  barcode r1 = barcode r2 →
  cache_row env2 r2 = Ok row →
  access_cache (cache_access_result env2 r2 (cache_access_result env1 r1 w).2).2
  = access_cache (cache_access_result env2 r2 w).2.
Proof.
  intros Hb Hrow. rewrite !cache_access_result_eq. cbn [snd].
  unfold cached_world. rewrite Hrow.
  destruct (cache_row env1 r1); cbn; [|reflexivity].
  rewrite Hb. apply insert_insert_eq.
Qed.

(** X3. A sweep never takes away a row that a lookup could still serve:
    with [max_age_hours] at least 1, every lookup made at a clock reading
    not earlier than that of the sweep returns after the sweep what it
    would have returned without it. *)
Theorem cleanup_is_invisible_to_lookups env env2 h b w :
  (1 ≤ h)%Z →
  (now env ≤ now env2)%Z →
  (get_cached_access env2 b (cleanup_old_cache env h w).2).1
  = (get_cached_access env2 b w).1.
Proof.
  clear fromisoformat HTTP_AVAILABLE config.
  intros Hh Hle. rewrite cleanup_old_cache_eq, !get_cached_access_eq.
  cbn [fst snd]. f_equal. unfold swept_world.
  destruct (cleanup_cutoff env h) as [c|e] eqn:Hcut; [|reflexivity].
  apply cleanup_cutoff_Ok in Hcut.
  destruct (delete_raises env); [reflexivity|].
  unfold cache_view. cbn [access_cache].
  destruct (select_raises env2); [reflexivity|].
  destruct (access_cache w !! b) as [row|] eqn:Hrow.
  - destruct (decide (row_cached_at row < c)%Z) as [Hold|Hnew].
    + rewrite (proj2 (map_lookup_filter_None _ _ _)).
      * rewrite bool_decide_eq_false_2; [reflexivity|lia].
      * right. intros x Hx. rewrite Hrow in Hx. injection Hx as <-. cbn. tauto.
    + rewrite (map_lookup_filter_Some_2 _ _ _ row Hrow); [reflexivity|].
      exact Hnew.
  - rewrite (proj2 (map_lookup_filter_None _ _ _)); [reflexivity|].
    left. exact Hrow.
Qed.

(** X4. A sweep only removes rows, and a second sweep at the same clock
    reading changes nothing more. *)
Theorem cleanup_only_removes_and_is_idempotent env h w :
  access_cache (cleanup_old_cache env h w).2 ⊆ access_cache w ∧
  cleanup_old_cache env h (cleanup_old_cache env h w).2
  = cleanup_old_cache env h w.
Proof.
  rewrite !cleanup_old_cache_eq. cbn [snd]. unfold swept_world.
  destruct (cleanup_cutoff env h) as [c|e]; [|split; reflexivity].
  destruct (delete_raises env); [split; reflexivity|].
  cbn. split; [apply map_filter_subseteq|].
  do 2 f_equal. apply map_eq. intros b.
  destruct (filter _ (access_cache w) !! b) as [row|] eqn:Hrow.
  - apply map_lookup_filter_Some in Hrow as [Hrow HP].
    apply map_lookup_filter_Some_2; [|exact HP].
    apply map_lookup_filter_Some_2; assumption.
  - apply map_lookup_filter_None. left. exact Hrow.
Qed.

(** X5. A turn of the periodic sweep is never fatal: it returns whatever
    the DELETE does, it leaves the audit table alone, and when the DELETE
    raises it leaves the whole world as it was. Otherwise, and when the
    clock reads a date from which 24 hours can be taken, no row older than
    24 hours is left. *)
Theorem periodic_cleanup_turn_is_never_fatal env w :
  ∃ w',
    _periodic_cleanup_turn env w = (Ok tt, w') ∧
    access_logs w' = access_logs w ∧
    (delete_raises env ≠ None → w' = w) ∧
    (delete_raises env = None →
     (datetime_min + 24 * 3600 ≤ now env ≤ datetime_max + 24 * 3600)%Z →
     ∀ b row, access_cache w' !! b = Some row →
       (now env - row_cached_at row ≤ 24 * 3600)%Z).
Proof.
  unfold _periodic_cleanup_turn, try_except, mbind, M_bind.
  rewrite cleanup_old_cache_eq. unfold mret, M_ret.
  eexists. split; [reflexivity|].
  split; [apply swept_world_logs|].
  unfold swept_world. split.
  - intros Hdel. destruct (cleanup_cutoff env _); [|reflexivity].
    destruct (delete_raises env); [reflexivity|by destruct Hdel].
  - intros Hdel Hnow.
    rewrite cleanup_cutoff_in_range, Hdel
      by (unfold default_max_age_hours; lia).
    intros b row Hrow. apply map_lookup_filter_Some in Hrow as [_ HP].
    cbn in HP. unfold default_max_age_hours in HP. lia.
Qed.

(** ** Further properties: reading the audit table *)

#[local] Instance newer_first_total : Total newer_first.
Proof. intros x y. unfold newer_first. lia. Qed.

#[local] Instance newer_first_transitive : Transitive newer_first.
Proof. intros x y z. unfold newer_first. lia. Qed.

Lemma get_access_logs_eq env limit offset w :
  get_access_logs env limit offset w =
    (Ok (match select_raises env with
         | Some _ => []
         | None =>
             if fits_int64 limit && fits_int64 offset then
               limit_offset limit offset
                 (merge_sort newer_first (access_logs w))
             else []
         end), w).
Proof.
  unfold get_access_logs, select_logs. munfold.
  destruct (select_raises env); [reflexivity|].
  destruct (fits_int64 limit && fits_int64 offset); reflexivity.
Qed.

Lemma limit_offset_subseteq {A} limit offset (rows : list A) :
  limit_offset limit offset rows ⊆ rows.
Proof.
  unfold limit_offset. destruct (bool_decide _).
  - apply subseteq_drop.
  - etrans; [apply subseteq_take|apply subseteq_drop].
Qed.

Lemma limit_offset_sorted limit offset rows :
  StronglySorted newer_first rows →
  StronglySorted newer_first (limit_offset limit offset rows).
Proof.
  intros Hs. unfold limit_offset.
  assert (Hd : StronglySorted newer_first (drop (Z.to_nat offset) rows)).
  { rewrite <- (take_drop (Z.to_nat offset) rows) in Hs.
    by apply StronglySorted_app_1_r in Hs. }
  destruct (bool_decide _); [exact Hd|].
  rewrite <- (take_drop (Z.to_nat limit) (drop _ rows)) in Hd.
  by apply StronglySorted_app_1_l in Hd.
Qed.

(** X6. [get_access_logs] never raises and changes nothing. Every entry it
    returns is a row of the audit table, the entries come newest first, and
    with a limit that is not negative there are at most [limit] of them.
    When the SELECT raises the answer is the empty list. *)
Theorem get_access_logs_returns_table_rows_newest_first env limit offset w :
  ∃ rows,
    get_access_logs env limit offset w = (Ok rows, w) ∧
    (∀ e, e ∈ rows → e ∈ access_logs w) ∧
    StronglySorted newer_first rows ∧
    ((0 ≤ limit)%Z → (length rows ≤ Z.to_nat limit)%nat) ∧
    (select_raises env ≠ None → rows = []).
Proof.
  rewrite get_access_logs_eq. eexists. split; [reflexivity|].
  assert (Hnil :
    (∀ e, e ∈ [] → e ∈ access_logs w) ∧
    StronglySorted newer_first [] ∧
    ((0 ≤ limit)%Z → (length (@nil AccessLog) ≤ Z.to_nat limit)%nat)).
  { split; [intros e' He'; by apply elem_of_nil in He'|].
    split; [apply SSorted_nil|cbn; lia]. }
  destruct (select_raises env) as [e|].
  { destruct Hnil as (H1 & H2 & H3). auto. }
  destruct (fits_int64 limit && fits_int64 offset).
  2:{ destruct Hnil as (H1 & H2 & H3).
      split; [exact H1|]. split; [exact H2|]. split; [exact H3|].
      intros H. by destruct H. }
  split; [|split; [|split]].
  - intros e He. apply limit_offset_subseteq in He.
    by rewrite merge_sort_Permutation in He.
  - apply limit_offset_sorted, StronglySorted_merge_sort; apply _.
  - intros Hl. unfold limit_offset.
    rewrite bool_decide_eq_false_2 by lia. rewrite length_take. lia.
  - intros H. by destruct H.
Qed.

(** X7. How many entries come back: with the SELECT succeeding and limit and
    offset non-negative 64-bit numbers, the smaller of [limit] and the
    number of rows past [offset]. An offset beyond the table gives the empty
    list. *)
Theorem get_access_logs_count env limit offset w :
  select_raises env = None →
  (0 ≤ limit < 2 ^ 63)%Z →
  (0 ≤ offset < 2 ^ 63)%Z →
  ∃ rows,
    (get_access_logs env limit offset w).1 = Ok rows ∧
    length rows
    = (Z.to_nat limit `min` (length (access_logs w) - Z.to_nat offset))%nat.
Proof.
  intros Hsel Hl Ho. rewrite get_access_logs_eq, Hsel. cbn [fst].
  unfold fits_int64.
  rewrite !bool_decide_eq_true_2 by lia. cbn [andb].
  eexists. split; [reflexivity|].
  unfold limit_offset. rewrite bool_decide_eq_false_2 by lia.
  rewrite length_take, length_drop.
  by rewrite (Permutation_length (merge_sort_Permutation _ _)).
Qed.

(** X8. The first entry is the newest: with the SELECT succeeding, offset 0
    and a limit of at least 1, a non-empty audit table gives a non-empty
    answer whose first entry has a timestamp no row of the table exceeds. *)
Theorem get_access_logs_first_is_newest env limit w e :
  select_raises env = None →
  (1 ≤ limit < 2 ^ 63)%Z →
  e ∈ access_logs w →
  ∃ first rest,
    (get_access_logs env limit 0 w).1 = Ok (first :: rest) ∧
    first ∈ access_logs w ∧
    ∀ e', e' ∈ access_logs w → (log_timestamp e' ≤ log_timestamp first)%Z.
Proof.
  intros Hsel Hl He. rewrite get_access_logs_eq, Hsel. cbn [fst].
  unfold fits_int64. rewrite !bool_decide_eq_true_2 by lia. cbn [andb].
  unfold limit_offset. rewrite bool_decide_eq_false_2 by lia.
  change (Z.to_nat 0) with 0%nat. rewrite drop_0.
  pose proof (merge_sort_Permutation newer_first (access_logs w)) as Hperm.
  pose proof (StronglySorted_merge_sort newer_first (access_logs w)) as Hs.
  destruct (merge_sort newer_first (access_logs w)) as [|x l].
  { rewrite <- Hperm in He. by apply elem_of_nil in He. }
  destruct (Z.to_nat limit) as [|n] eqn:Hn; [lia|]. cbn [take].
  eexists _, _. split; [reflexivity|]. split.
  - rewrite <- Hperm. left.
  - intros e' He'. rewrite <- Hperm in He'.
    apply StronglySorted_inv in Hs as [_ Hx].
    apply elem_of_cons in He' as [->|He']; [lia|].
    rewrite Forall_forall in Hx. exact (Hx e' He').
Qed.

(** X9. A negative limit is no limit: with the SELECT succeeding, a negative
    limit and an offset that is 0 or negative, the answer holds every row
    of the audit table, each as often as the table does. *)
Theorem get_access_logs_negative_limit_returns_all env limit offset w :
  select_raises env = None →
  (- 2 ^ 63 ≤ limit < 0)%Z →
  (- 2 ^ 63 ≤ offset ≤ 0)%Z →
  ∃ rows,
    (get_access_logs env limit offset w).1 = Ok rows ∧
    rows ≡ₚ access_logs w.
Proof.
  intros Hsel Hl Ho. rewrite get_access_logs_eq, Hsel. cbn [fst].
  unfold fits_int64. rewrite !bool_decide_eq_true_2 by lia. cbn [andb].
  unfold limit_offset. rewrite bool_decide_eq_true_2 by lia.
  replace (Z.to_nat offset) with 0%nat by lia. rewrite drop_0.
  eexists. split; [reflexivity|]. apply merge_sort_Permutation.
Qed.

(** ** Further properties: the decision path *)

(** The entry that [verify_access] hands to [log_access_attempt] has a
    reason that is not empty. *)
Lemma verify_access_log_entry_reason env b source r :
  truthy (log_reason (verify_access_log_entry env b source r)) = true.
Proof.
  cbn. unfold py_or.
  destruct (truthy (reason r)) eqn:Hr; [exact Hr|].
  by destruct (truthy (granted r)).
Qed.

(** A text column keeps a value that is not empty so, except for a
    [float]. *)
Lemma text_column_truthy db v v' :
  truthy v = true →
  text_column db v = Ok v' →
  truthy v' = true ∨ ∃ f, v = PyFloat f.
Proof.
  destruct v as [|[]|n|f|s|l|kv]; cbn; intros Ht Hv; try discriminate.
  - injection Hv as <-. by left.
  - destruct (fits_int64 n); [|discriminate].
    injection Hv as <-. left. apply pretty_Z_truthy.
  - right. eauto.
  - injection Hv as <-. by left.
Qed.

(** What a call of [verify_access] does to the audit table: nothing, or it
    appends the row that the INSERT makes of an entry. *)
Lemma access_view_logs env b source w :
  (access_logs (access_view env b source w).2 = access_logs w ∧
   access_logs_seq (access_view env b source w).2 = access_logs_seq w)
  ∨ ∃ entry row,
      insert_log_row env w entry = Ok row ∧
      access_logs (access_view env b source w).2 = access_logs w ++ [row] ∧
      access_logs_seq (access_view env b source w).2 = next_rowid w ∧
      ((∃ r, (access_view env b source w).1 = Ok r
             ∧ entry = verify_access_log_entry env b source r)
       ∨ ∃ e, entry = error_log_entry env b source e).
Proof.
  assert (Hlw : ∀ entry w1,
    access_logs w1 = access_logs w →
    access_logs_seq w1 = access_logs_seq w →
    (access_logs (logged_world env entry w1) = access_logs w ∧
     access_logs_seq (logged_world env entry w1) = access_logs_seq w)
    ∨ ∃ row,
        insert_log_row env w entry = Ok row ∧
        access_logs (logged_world env entry w1) = access_logs w ++ [row] ∧
        access_logs_seq (logged_world env entry w1) = next_rowid w).
  { intros entry w1 Hl Hs.
    rewrite <- (insert_log_row_ext env w1 w entry Hl Hs).
    replace (next_rowid w) with (next_rowid w1)
      by (unfold next_rowid; by rewrite Hl, Hs).
    rewrite <- Hl, <- Hs.
    destruct (logged_world_inv env entry w1) as [(H1 & H2 & _)|(row & H)];
      [by left|right; eauto]. }
  unfold access_view. destruct (cache_view env b w) as [r|].
  - destruct (Hlw (verify_access_log_entry env b source r) w eq_refl eq_refl)
      as [H|(row & H1 & H2 & H3)]; [by left|right].
    cbn [fst snd]. eexists _, row. eauto 8.
  - pose proof (remote_view_logs env b w) as Hlogs.
    pose proof (remote_view_seq env b w) as Hseq.
    destruct (remote_view env b w) as [[[r|]|e] w1]; cbn [fst snd] in *.
    + destruct (Hlw (verify_access_log_entry env b source r)
                  (cached_world env r w1))
        as [H|(row & H1 & H2 & H3)];
        [by rewrite cached_world_logs|by rewrite cached_world_seq
        |by left|right].
      eexists _, row. eauto 8.
    + destruct (Hlw (verify_access_log_entry env b source (fallback_result b))
                  w1 Hlogs Hseq)
        as [H|(row & H1 & H2 & H3)]; [by left|right].
      eexists _, row. eauto 8.
    + destruct (Hlw (error_log_entry env b source e) w1 Hlogs Hseq)
        as [H|(row & H1 & H2 & H3)]; [by left|right].
      eexists _, row. eauto 8.
Qed.

(** What each call does to the audit table and to its counter. *)
Lemma run_call_logs c w :
  (access_logs (run_call c w) = access_logs w ∧
   access_logs_seq (run_call c w) = access_logs_seq w)
  ∨ writes_audit c = true
    ∧ ∃ row, access_logs (run_call c w) = access_logs w ++ [row]
             ∧ log_id row = Some (next_rowid w)
             ∧ access_logs_seq (run_call c w) = next_rowid w.
Proof.
  destruct c as [env b source|env|env b g uid r source|env limit offset];
    cbn [run_call writes_audit].
  - rewrite verify_access_eq.
    destruct (access_view_logs env b source w)
      as [H|(entry & row & Hrow & H1 & H2 & _)]; [by left|right].
    apply insert_log_row_Ok in Hrow as (_ & _ & Hid & _). eauto.
  - unfold _periodic_cleanup_turn, try_except, mbind, M_bind.
    rewrite cleanup_old_cache_eq. unfold mret, M_ret. cbn [snd].
    left. apply swept_world_logs.
  - unfold log_api_access, try_except. rewrite log_access_attempt_eq.
    cbn [snd].
    destruct (logged_world_inv env
                {| log_id := None; log_timestamp := now env;
                   log_barcode := b; log_granted := PyBool g;
                   log_user_id := uid; log_user_name := PyNone;
                   log_reason := PyStr r; log_source := source |} w)
      as [(H1 & H2 & _)|(row & Hrow & H1 & H2)]; [by left|right].
    apply insert_log_row_Ok in Hrow as (_ & _ & Hid & _). eauto.
  - rewrite get_access_logs_eq. by left.
Qed.

(** The counter of the audit table never goes down. *)
Lemma run_calls_seq_mono cs w :
  (access_logs_seq w ≤ access_logs_seq (run_calls cs w))%Z.
Proof.
  revert w. induction cs as [|c cs IH]; intros w; [cbn; lia|].
  change (run_calls (c :: cs) w) with (run_calls cs (run_call c w)).
  etrans; [|apply IH].
  destruct (run_call_logs c w) as [[_ ->]|(_ & row & _ & _ & ->)]; [lia|].
  destruct (next_rowid_above w). lia.
Qed.

(** X10. The audit table is append-only: whatever sequence of calls
    ([verify_access], sweeps, [log_api_access], [get_access_logs]) is run
    and whatever fails on the way, the rows that were in the table are
    still there, unchanged and in place, and the table has grown by at most
    one row per call that writes to it. *)
Theorem audit_log_is_append_only cs w :
  access_logs w `prefix_of` access_logs (run_calls cs w) ∧
  (length (access_logs (run_calls cs w))
   ≤ length (access_logs w) + length (filter (λ c, writes_audit c) cs))%nat.
Proof.
  revert w. induction cs as [|c cs IH]; intros w.
  { cbn. split; [reflexivity|lia]. }
  change (run_calls (c :: cs) w) with (run_calls cs (run_call c w)).
  destruct (IH (run_call c w)) as [Hpre Hlen].
  destruct (run_call_logs c w) as [[Heq _]|(Hw & e & Heq & _)].
  - rewrite Heq in Hpre, Hlen. split; [exact Hpre|].
    rewrite filter_cons. destruct (decide _); cbn [length]; lia.
  - rewrite Heq in Hpre, Hlen. split.
    + by apply prefix_app_l in Hpre.
    + rewrite filter_cons, decide_True by (by rewrite Hw).
      rewrite length_app in Hlen. cbn [length] in *. lia.
Qed.

(** X11. No id of the audit table is ever used twice. Over any sequence of
    calls, and whatever rows the table held before, the rows that the calls
    append have ids that grow strictly in the order of the rows, and each
    is larger than every id that was in the table and than every id given
    before (the counter that AUTOINCREMENT keeps). *)
Theorem audit_ids_are_never_reused cs w :
  ∃ new,
    access_logs (run_calls cs w) = access_logs w ++ new ∧
    StronglySorted (λ x y, (rowid x < rowid y)%Z) new ∧
    ∀ e, e ∈ new →
      log_id e ≠ None ∧
      (access_logs_seq w < rowid e ≤ access_logs_seq (run_calls cs w))%Z ∧
      ∀ e0, e0 ∈ access_logs w → (rowid e0 < rowid e)%Z.
Proof.
  revert w. induction cs as [|c cs IH]; intros w.
  { exists []. cbn. rewrite app_nil_r. split; [reflexivity|].
    split; [constructor|]. intros e He. by apply elem_of_nil in He. }
  change (run_calls (c :: cs) w) with (run_calls cs (run_call c w)).
  destruct (IH (run_call c w)) as (new & Hlogs & Hsorted & Hnew).
  destruct (run_call_logs c w) as [[Hl Hs]|(_ & row & Hl & Hid & Hs)].
  - exists new. rewrite Hlogs, Hl. split; [reflexivity|].
    split; [exact Hsorted|].
    intros e He. destruct (Hnew e He) as (H1 & H2 & H3).
    rewrite Hs in H2. rewrite Hl in H3. auto.
  - destruct (next_rowid_above w) as [Hseq Hids].
    assert (Hrow : rowid row = next_rowid w) by (unfold rowid; by rewrite Hid).
    pose proof (run_calls_seq_mono cs (run_call c w)) as Hmono.
    rewrite Hs in Hmono.
    exists (row :: new). rewrite Hlogs, Hl, <- app_assoc.
    split; [reflexivity|]. split.
    + constructor; [exact Hsorted|].
      apply Forall_forall. intros e He.
      destruct (Hnew e He) as (_ & H2 & _). rewrite Hs in H2. lia.
    + intros e He. apply elem_of_cons in He as [->|He].
      * split; [by rewrite Hid|]. split; [lia|].
        intros e0 He0. rewrite Hrow. by apply Hids.
      * destruct (Hnew e He) as (H1 & H2 & H3).
        split; [exact H1|]. rewrite Hs in H2. split; [lia|].
        intros e0 He0. apply H3. rewrite Hl. apply elem_of_app. by left.
Qed.

(** X12. A call of [verify_access] for one barcode leaves the cache rows of
    every other barcode alone. The row of the barcode itself is either as it
    was, or it now holds the result returned — which then came from the
    remote verifier — as the INSERT stores it: granted as its BOOLEAN
    column keeps it, user_id and user_name as their TEXT columns keep them,
    stamped with the CURRENT_TIMESTAMP of the call. *)
Theorem verify_access_changes_one_cache_row env b source w :
  (∀ b', b' ≠ b →
     access_cache (verify_access env b source w).2 !! b'
     = access_cache w !! b') ∧
  (access_cache (verify_access env b source w).2 = access_cache w
   ∨ ∃ r row,
       (verify_access env b source w).1 = Ok r ∧
       cached r = false ∧
       insert_cache_row env (user_id r) (user_name r) (granted r)
         (py_or (permissions r) (PyList [])) (expires_at r) = Ok row ∧
       access_cache (verify_access env b source w).2 !! b = Some row ∧
       numeric_column (sqlite env) (granted r) = Ok (row_granted row) ∧
       text_column (sqlite env) (user_id r) = Ok (row_user_id row) ∧
       text_column (sqlite env) (user_name r) = Ok (row_user_name row) ∧
       row_permissions row = py_or (permissions r) (PyList []) ∧
       row_expires_at row = expires_at r ∧
       row_cached_at row = current_timestamp env).
Proof.
  rewrite verify_access_eq. unfold access_view.
  destruct (cache_view env b w) as [r|].
  { cbn [fst snd]. rewrite logged_world_cache. auto. }
  pose proof (remote_view_cache env b w) as Hcache.
  pose proof (remote_view_barcode env b w) as Hb.
  destruct (remote_view env b w) as [[[r|]|e] w1]; cbn [fst snd] in *;
    rewrite logged_world_cache; try (rewrite Hcache; by auto).
  destruct (Hb r eq_refl) as [Hbr Hc].
  unfold cached_world. destruct (cache_row env r) as [row|e] eqn:Hrow.
  2:{ rewrite Hcache. auto. }
  cbn [access_cache]. rewrite Hbr, Hcache. split.
  - intros b' Hne. by apply lookup_insert_ne.
  - right. exists r, row.
    destruct (cache_row_Ok env r row Hrow) as (_ & Hu & Hn & Hg & Hp & He & Ht).
    split; [reflexivity|]. split; [exact Hc|]. split; [exact Hrow|].
    split; [apply lookup_insert_eq|]. auto 8.
Qed.

(** X13. The [cached] flag of the result tells whether the remote verifier
    was asked: a result with [cached = True] was produced without a call to
    [verify_barcode] and without touching the cache table; a result with
    [cached = False] cost exactly one call. *)
Theorem cached_flag_tells_whether_remote_was_asked env b source w :
  ∃ r w',
    verify_access env b source w = (Ok r, w') ∧
    (cached r = true →
     remote_calls w' = remote_calls w ∧ access_cache w' = access_cache w) ∧
    (cached r = false → remote_calls w' = remote_calls w ++ [b]).
Proof.
  rewrite verify_access_eq. unfold access_view.
  destruct (cache_view env b w) as [r|] eqn:Hc.
  { apply cache_view_barcode in Hc as (_ & Hc & _).
    eexists _, _. split; [reflexivity|].
    rewrite logged_world_calls, logged_world_cache, Hc. split; [auto|done]. }
  pose proof (remote_view_calls env b w) as Hcalls.
  pose proof (remote_view_barcode env b w) as Hb.
  destruct (remote_view env b w) as [[[r|]|e] w1]; cbn [fst snd] in *;
    eexists _, _; (split; [reflexivity|]);
    rewrite logged_world_calls, ?cached_world_calls.
  - destruct (Hb r eq_refl) as [_ ->]. split; [done|auto].
  - split; [done|auto].
  - split; [done|auto].
Qed.

(** X14. No grant without evidence: when the result of [verify_access] has
    a truthy [granted], either the cache read succeeded on a row for the
    barcode less than an hour old that holds this value, or the remote is
    configured and answered 200 with a JSON object whose [access_granted]
    field is this value. *)
Theorem grant_needs_explicit_evidence env b source w r :
  (verify_access env b source w).1 = Ok r →
  truthy (granted r) = true →
  (∃ row,
     select_raises env = None ∧
     access_cache w !! b = Some row ∧
     (now env - row_cached_at row < 3600)%Z ∧
     row_granted row = granted r)
  ∨ (∃ kv,
       post env = Response 200 (Ok (PyDict kv)) ∧
       assoc kv "access_granted" = Some (granted r) ∧
       type config = "http" ∧
       base_url (http config) ≠ "" ∧
       HTTP_AVAILABLE = true).
Proof.
  rewrite verify_access_eq. unfold access_view. intros Hres Hg.
  destruct (cache_view env b w) as [r'|] eqn:Hc.
  { cbn in Hres. injection Hres as ->. left.
    unfold cache_view in Hc.
    destruct (select_raises env); [discriminate|].
    destruct (access_cache w !! b) as [row|]; [|discriminate].
    destruct (bool_decide_reflect (now env - row_cached_at row < 3600)%Z);
      [|discriminate].
    injection Hc as <-. exists row. auto. }
  right.
  destruct (remote_view env b w) as [[[r'|]|e] w1] eqn:Hr; cbn in Hres;
    injection Hres as <-; try discriminate Hg.
  unfold remote_view in Hr.
  destruct (bool_decide_reflect (type config ≠ "http")) as [|Ht];
    [discriminate|].
  destruct (bool_decide_reflect (base_url (http config) = "")) as [|Hu];
    [discriminate|].
  destruct HTTP_AVAILABLE eqn:Ha; [|discriminate]. cbn in Hr.
  assert (Hpv : post_view env b = Some r').
  { destruct (_client w); [congruence|].
    destruct (client_init_raises env); congruence. }
  clear Hr. unfold post_view in Hpv.
  destruct (post env) as [e|st body]; [discriminate|].
  destruct (bool_decide_reflect (st = 200)) as [->|].
  - destruct body as [data|e]; [|discriminate].
    destruct data as [| | | | | |kv];
      try (injection Hpv as <-; discriminate Hg).
    cbn in Hpv. injection Hpv as <-. cbn in Hg. unfold dict_get in Hg.
    exists kv. repeat split; try assumption.
    + cbn. unfold dict_get.
      destruct (assoc kv "access_granted"); [reflexivity|discriminate Hg].
    + destruct (decide (type config = "http")) as [|Hn]; [done|].
      by destruct Ht.
  - destruct (bool_decide (st = 404)); [|discriminate].
    injection Hpv as <-. discriminate Hg.
Qed.

(** X15. Every audit row written by [verify_access] has a reason that is
    not empty, unless the authority sent a [float] for the reason (NaN is
    stored as NULL and comes back as [None]): a call leaves the audit table
    as it was or appends one row, and the reason of that row is truthy or
    the reason of the result is a [float]. *)
Theorem audit_reason_is_never_empty env b source w :
  access_logs (verify_access env b source w).2 = access_logs w
  ∨ ∃ r row,
      (verify_access env b source w).1 = Ok r ∧
      access_logs (verify_access env b source w).2 = access_logs w ++ [row] ∧
      (truthy (log_reason row) = true ∨ ∃ f, reason r = PyFloat f).
Proof.
  rewrite verify_access_eq.
  assert (Hok : ∃ r, (access_view env b source w).1 = Ok r).
  { unfold access_view. destruct (cache_view env b w); [eauto|].
    destruct (remote_view env b w) as [[[r|]|e] w1]; eauto. }
  destruct Hok as [r0 Hr0].
  destruct (access_view_logs env b source w)
    as [[H _]|(entry & row & Hrow & Hl & _ & Hentry)]; [by left|right].
  apply insert_log_row_Ok in Hrow as (_ & _ & _ & _ & _ & _ & _ & _ & _ & Hr).
  exists r0, row. split; [exact Hr0|]. split; [exact Hl|].
  destruct Hentry as [(r & Hres & ->)|(e & ->)].
  - assert (r = r0) as -> by congruence.
    pose proof (verify_access_log_entry_reason env b source r0) as Ht.
    cbn in Hr, Ht. unfold py_or in Hr, Ht.
    destruct (truthy (reason r0)) eqn:Htr.
    + destruct (text_column_truthy _ _ _ Htr Hr); auto.
    + left. destruct (truthy (granted r0)); cbn in Hr; by injection Hr as <-.
  - left. cbn in Hr. by injection Hr as <-.
Qed.

(** X16. The value of [access_granted] is passed through as it is: when the
    cache is missed and a configured remote answers 200 with a JSON object
    whose [access_granted] is [v], the result has [granted = v] — whatever
    kind of value [v] is and whatever the object says under [expires_at]. *)
Theorem remote_grant_value_is_passed_through env b source w kv v :
  (get_cached_access env b w).1 = Ok None →
  type config = "http" →
  base_url (http config) ≠ "" →
  HTTP_AVAILABLE = true →
  (_client w = false → client_init_raises env = None) →
  post env = Response 200 (Ok (PyDict kv)) →
  assoc kv "access_granted" = Some v →
  ∃ r,
    (verify_access env b source w).1 = Ok r ∧
    granted r = v ∧
    cached r = false.
Proof.
  rewrite get_cached_access_eq. cbn [fst].
  intros [= Hmiss] Ht Hu Ha Hc Hpost Hv.
  pose proof (remote_view_configured env b w Ht Hu Ha Hc) as Hr.
  rewrite verify_access_eq. unfold access_view. rewrite Hmiss.
  unfold post_view in Hr. rewrite Hpost in Hr. cbn in Hr.
  destruct (remote_view env b w) as [x w1]. cbn in Hr. subst x.
  eexists. split; [reflexivity|]. cbn. unfold dict_get. rewrite Hv. auto.
Qed.

(** X17. One row serves many calls: while the cache holds a row for the
    barcode, any number of calls whose cache read succeeds less than an hour
    after the stamp of the row are answered without asking the remote
    verifier and without changing the cache table. *)
Theorem fresh_row_serves_every_call envs b source w row :
  access_cache w !! b = Some row →
  Forall (λ env, select_raises env = None
                 ∧ (now env - row_cached_at row < 3600)%Z) envs →
  remote_calls (run_calls (map (λ env, CallVerify env b source) envs) w)
  = remote_calls w ∧
  access_cache (run_calls (map (λ env, CallVerify env b source) envs) w)
  = access_cache w.
Proof.
  intros Hrow Hall. revert w Hrow.
  induction Hall as [|env envs [Hsel Hage] _ IH]; intros w Hrow; [done|].
  cbn [map].
  change (run_calls (CallVerify env b source :: ?cs) w)
    with (run_calls cs (run_call (CallVerify env b source) w)).
  cbn [run_call]. rewrite verify_access_eq.
  assert (Hhit : ∃ r, cache_view env b w = Some r).
  { unfold cache_view. rewrite Hsel, Hrow.
    rewrite bool_decide_eq_true_2 by exact Hage. eauto. }
  destruct Hhit as [r Hhit].
  destruct (access_view_hit env b source w r Hhit) as (_ & Hcalls & Hcache).
  destruct (IH (access_view env b source w).2) as [H1 H2].
  { by rewrite Hcache. }
  rewrite H1, H2. auto.
Qed.

(** ** Further properties: the door *)

(** What [open_door] does when [gpio.output] does not raise. *)
Lemma open_door_ok hw duration h :
  open_door hw None duration h =
    (Ok PyNone,
     {| pin_states := <[door_control (relays hw) := 1%Z]> (pin_states h);
        deactivations :=
          deactivations h ++
            (let d := if truthy_duration duration then default 0%Z duration
                      else unlock_duration (door hw) in
             if bool_decide (d = 0%Z) then []
             else [(door_control (relays hw), d)]) |}).
Proof.
  unfold open_door, set_relay. cbn.
  set (d := if truthy_duration duration then _ else _).
  destruct (bool_decide_reflect (d = 0%Z)) as [->|Hd]; cbn.
  - by rewrite app_nil_r.
  - rewrite andb_true_r. by rewrite (proj2 (Z.eqb_neq d 0) Hd).
Qed.

Lemma open_door_raises hw e duration h :
  open_door hw (Some e) duration h = (Raise e, h).
Proof. reflexivity. Qed.

(** X18. The door follows the decision. [_process_barcode_access] never
    raises. When the result of [verify_access] is not truthy-granted, or
    [gpio.output] raises, the hardware is left as it was. When the result is
    granted and the output works, the door relay pin is set high and, unless
    the configured unlock duration is 0, one switch-off is scheduled after
    that duration. *)
Theorem door_follows_the_decision hw env out b w h :
  ∃ r w' h',
    verify_access env b "barcode" w = (Ok r, w') ∧
    _process_barcode_access hw env out b (w, h) = (Ok PyNone, (w', h')) ∧
    (truthy (granted r) = false → h' = h) ∧
    (out ≠ None → h' = h) ∧
    (truthy (granted r) = true →
     out = None →
     pin_states h' = <[door_control (relays hw) := 1%Z]> (pin_states h) ∧
     deactivations h' =
       deactivations h ++
         (if bool_decide (unlock_duration (door hw) = 0%Z) then []
          else [(door_control (relays hw), unlock_duration (door hw))])).
Proof.
  unfold _process_barcode_access. cbn [fst snd].
  rewrite verify_access_eq.
  assert (Hok : ∃ r w', access_view env b "barcode" w = (Ok r, w')).
  { unfold access_view. destruct (cache_view env b w); [eauto|].
    destruct (remote_view env b w) as [[[r|]|e] w1]; eauto. }
  destruct Hok as (r & w' & ->). exists r, w'.
  destruct (truthy (granted r)) eqn:Hg.
  - destruct out as [e|].
    + rewrite open_door_raises. eexists. repeat split; try done.
    + rewrite open_door_ok. eexists. split; [reflexivity|].
      split; [reflexivity|]. split; [done|]. split; [done|].
      intros _ _. cbn. auto.
  - eexists. repeat split; try done.
Qed.

(** X19. Fail closed at the door: when the cache has nothing fresh for the
    barcode and the remote verifier yields no result (or raises), a scan
    leaves the hardware exactly as it was. *)
Theorem door_stays_shut_without_an_answer hw env out b w h :
  (get_cached_access env b w).1 = Ok None →
  (∀ r, (verify_barcode env b w).1 ≠ Ok (Some r)) →
  (_process_barcode_access hw env out b (w, h)).2.2 = h.
Proof.
  rewrite get_cached_access_eq, verify_barcode_eq. cbn [fst].
  intros [= Hmiss] Hno.
  unfold _process_barcode_access. cbn [fst snd].
  rewrite verify_access_eq. unfold access_view. rewrite Hmiss.
  destruct (remote_view env b w) as [[[r|]|e] w1]; cbn in *;
    [by destruct (Hno r)|reflexivity|reflexivity].
Qed.

(** X20. A cached grant opens the door whatever its remote expiry: when the
    cache read succeeds on a row less than an hour old with a truthy
    [granted], a scan sets the door relay pin high without asking the
    remote verifier, even when [expires_at] of the row is in the past. The
    engine stores the expiry and never compares it with the clock. *)
Theorem cached_grant_opens_door_whatever_its_expiry hw env b w h row :
  select_raises env = None →
  access_cache w !! b = Some row →
  (now env - row_cached_at row < 3600)%Z →
  truthy (row_granted row) = true →
  pin_states (_process_barcode_access hw env None b (w, h)).2.2
    !! door_control (relays hw) = Some 1%Z ∧
  remote_calls (_process_barcode_access hw env None b (w, h)).2.1
  = remote_calls w.
Proof.
  intros Hsel Hrow Hage Hg.
  unfold _process_barcode_access. cbn [fst snd].
  rewrite verify_access_eq.
  assert (Hhit : cache_view env b w =
    Some {| granted := row_granted row; barcode := b;
            user_id := row_user_id row; user_name := row_user_name row;
            reason := PyNone; expires_at := row_expires_at row;
            permissions := row_permissions row; cached := true |}).
  { unfold cache_view. rewrite Hsel, Hrow.
    by rewrite bool_decide_eq_true_2 by exact Hage. }
  destruct (access_view_hit env b "barcode" w _ Hhit) as (H1 & H2 & _).
  destruct (access_view env b "barcode" w) as [x w']. cbn in H1, H2.
  subst x. cbn [granted]. rewrite Hg, open_door_ok. cbn.
  split; [apply lookup_insert_eq|exact H2].
Qed.

(** X21. The emergency override opens the door whatever the audit write
    does: when [gpio.output] does not raise, the door relay pin is set high
    and one switch-off is scheduled after 30 seconds. The audit row
    ("EMERGENCY", granted stored as 1, source "emergency", the user and the
    reason given) is written when the INSERT succeeds, which it does when
    the database does not fail and an id is left; when it raises, the
    failure is swallowed and the door opens all the same. *)
Theorem emergency_override_opens_the_door hw env r user w h :
  ∃ w' h',
    emergency_override hw env None r user (w, h)
    = (Ok ("Emergency override activated: " +:+ r), (w', h')) ∧
    pin_states h' = <[door_control (relays hw) := 1%Z]> (pin_states h) ∧
    deactivations h' = deactivations h ++ [(door_control (relays hw), 30%Z)] ∧
    (insert_log_raises env ≠ None → access_logs w' = access_logs w) ∧
    (insert_log_raises env = None →
     rowids_exhausted w = false →
     ∃ e,
       access_logs w' = access_logs w ++ [e] ∧
       log_barcode e = "EMERGENCY" ∧
       log_granted e = PyInt 1 ∧
       log_user_id e = PyStr user ∧
       log_reason e = PyStr r ∧
       log_source e = "emergency").
Proof.
  unfold emergency_override, log_api_access, try_except. cbn [fst snd].
  rewrite log_access_attempt_eq, open_door_ok. cbn.
  eexists _, _. split; [reflexivity|]. split; [reflexivity|].
  split; [reflexivity|].
  unfold logged_world, insert_log_row, raise_if, mbind, mret, Exc_bind,
    Exc_ret.
  destruct (insert_log_raises env); cbn.
  - split; [reflexivity|discriminate].
  - split; [intros H; by destruct H|]. intros _ ->.
    eexists. repeat split.
Qed.

(** X22. When [gpio.output] raises, the emergency override answers with the
    detail "Emergency override failed: ..." and the hardware is left as it
    was; the audit row saying that emergency access was granted has been
    written before, and stays. *)
Theorem emergency_override_gpio_failure hw env e r user w h :
  insert_log_raises env = None →
  rowids_exhausted w = false →
  ∃ w' entry,
    emergency_override hw env (Some e) r user (w, h)
    = (Raise ("Emergency override failed: " +:+ e), (w', h)) ∧
    access_logs w' = access_logs w ++ [entry] ∧
    log_barcode entry = "EMERGENCY" ∧
    log_granted entry = PyInt 1.
Proof.
  intros Hins Hex.
  unfold emergency_override, log_api_access, try_except. cbn [fst snd].
  rewrite log_access_attempt_eq, open_door_raises.
  unfold logged_world, insert_log_row, raise_if, mbind, mret, Exc_bind,
    Exc_ret.
  rewrite Hins, Hex.
  eexists _, _. split; [reflexivity|]. cbn. repeat split.
Qed.

(** X23. [open_door] treats a duration of 0 like no duration: the configured
    unlock duration is used. And when that is 0 as well, the relay is
    switched on and no switch-off is scheduled at all. *)
Theorem open_door_zero_duration_means_default hw out h :
  open_door hw out (Some 0%Z) h = open_door hw out None h ∧
  (unlock_duration (door hw) = 0%Z →
   open_door hw None None h =
     (Ok PyNone,
      {| pin_states := <[door_control (relays hw) := 1%Z]> (pin_states h);
         deactivations := deactivations h |})).
Proof.
  split; [reflexivity|].
  intros H0. rewrite open_door_ok. cbn. rewrite H0. cbn.
  by rewrite app_nil_r.
Qed.

(** X24. Any truthy [access_granted] opens the door: when the cache is
    missed and a configured remote answers 200 with a JSON object whose
    [access_granted] is truthy in the sense of Python — [True], but also a
    non-zero number or a non-empty string such as ["false"] — a scan sets
    the door relay pin high. *)
Theorem truthy_grant_value_opens_the_door hw env b w h kv v :
  (get_cached_access env b w).1 = Ok None →
  type config = "http" →
  base_url (http config) ≠ "" →
  HTTP_AVAILABLE = true →
  (_client w = false → client_init_raises env = None) →
  post env = Response 200 (Ok (PyDict kv)) →
  assoc kv "access_granted" = Some v →
  truthy v = true →
  pin_states (_process_barcode_access hw env None b (w, h)).2.2
    !! door_control (relays hw) = Some 1%Z.
Proof.
  rewrite get_cached_access_eq. cbn [fst].
  intros [= Hmiss] Ht Hu Ha Hc Hpost Hv Htv.
  pose proof (remote_view_configured env b w Ht Hu Ha Hc) as Hr.
  assert (Hpv : ∃ r0, post_view env b = Some r0 ∧ granted r0 = v).
  { unfold post_view. rewrite Hpost.
    rewrite bool_decide_eq_true_2 by reflexivity. cbn.
    eexists. split; [reflexivity|]. cbn. unfold dict_get. by rewrite Hv. }
  destruct Hpv as (r0 & Hpv & Hg). rewrite Hpv in Hr.
  unfold _process_barcode_access. cbn [fst snd].
  rewrite verify_access_eq. unfold access_view. rewrite Hmiss.
  destruct (remote_view env b w) as [x w1]. cbn in Hr. subst x.
  rewrite Hg, Htv, open_door_ok. cbn. apply lookup_insert_eq.
Qed.

(** X25. [set_relay] with a name that is no relay raises and changes
    nothing; with the name of a relay it never writes a pin other than the
    pin of that relay, and switching a relay off schedules nothing. *)
Theorem set_relay_touches_one_pin hw out name state duration h :
  (relay_pin hw name = None →
   set_relay hw out name state duration h
   = (Raise ("Unknown relay: " +:+ name), h)) ∧
  (∀ p, relay_pin hw name ≠ Some p →
     pin_states (set_relay hw out name state duration h).2 !! p
     = pin_states h !! p) ∧
  (state = false →
   deactivations (set_relay hw out name state duration h).2
   = deactivations h).
Proof.
  unfold set_relay. destruct (relay_pin hw name) as [pin|].
  - split; [discriminate|]. destruct out as [e|]; cbn.
    + split; reflexivity.
    + split.
      * intros p Hp.
        destruct (truthy_duration duration && state); cbn;
          apply lookup_insert_ne; congruence.
      * intros ->. by rewrite andb_false_r.
  - split; [reflexivity|]. split; reflexivity.
Qed.

(** X26. An answer that cannot be stored leaves no trace. When the cache
    is missed and the remote verifier answers with a [user_id] that sqlite3
    cannot bind (a JSON array or object, or an integer beyond 64 bits), the
    result is returned as it is, a grant included, but the cache write and
    the audit write both raise and are swallowed: neither table changes. *)
Theorem unbindable_answer_leaves_no_trace env b source w r e :
  (get_cached_access env b w).1 = Ok None →
  (verify_barcode env b w).1 = Ok (Some r) →
  text_column (sqlite env) (user_id r) = Raise e →
  ∃ w',
    verify_access env b source w = (Ok r, w') ∧
    access_cache w' = access_cache w ∧
    access_logs w' = access_logs w.
Proof.
  rewrite get_cached_access_eq, verify_barcode_eq. cbn [fst].
  intros [= Hmiss] Hr He.
  pose proof (remote_view_cache env b w) as Hcache.
  pose proof (remote_view_logs env b w) as Hlogs.
  rewrite verify_access_eq. unfold access_view. rewrite Hmiss.
  destruct (remote_view env b w) as [x w1]. cbn in Hr, Hcache, Hlogs.
  subst x. eexists. split; [reflexivity|].
  assert (Hcw : cached_world env r w1 = w1).
  { unfold cached_world, cache_row, insert_cache_row, raise_if, mbind,
      Exc_bind.
    destruct (insert_cache_raises env); [reflexivity|]. by rewrite He. }
  assert (Hlw : ∀ w0, logged_world env
                        (verify_access_log_entry env b source r) w0 = w0).
  { intros w0.
    unfold logged_world, insert_log_row, raise_if, mbind, Exc_bind.
    destruct (insert_log_raises env); [reflexivity|].
    destruct (numeric_column _ _); [|reflexivity].
    cbn [verify_access_log_entry log_user_id]. by rewrite He. }
  rewrite Hlw, Hcw. auto.
Qed.

End Verifier.

(** ** Instances of the theorems on the scenarios *)

Lemma C1_unavailable_is_fallback_deny_witness :
  ∃ w',
    verify_access example_fromisoformat true http_config (timeout_env 10)
      "123456789" "barcode" empty_world =
      (Ok {| granted := PyBool false; barcode := "123456789";
             user_id := PyNone; user_name := PyNone;
             reason := PyStr "Remote verification unavailable";
             expires_at := None; permissions := PyNone; cached := false |},
       w') ∧
    access_cache w' = access_cache empty_world ∧
    remote_calls w' = remote_calls empty_world ++ ["123456789"] ∧
    (select_raises (timeout_env 10) = None →
     ∀ env2 source2, (now (timeout_env 10) ≤ now env2)%Z →
       remote_calls
         (verify_access example_fromisoformat true http_config env2
            "123456789" source2 w').2
       = remote_calls w' ++ ["123456789"]).
Proof.
  apply (C1_unavailable_is_fallback_deny example_fromisoformat true
           http_config (timeout_env 10) "123456789" "barcode" empty_world).
  - reflexivity.
  - reflexivity.
Defined.

Lemma C2_not_found_is_denied_and_cached_witness :
  ∃ w',
    verify_access example_fromisoformat true http_config (not_found_env 0)
      "999999999" "barcode" empty_world =
      (Ok {| granted := PyBool false; barcode := "999999999";
             user_id := PyNone; user_name := PyNone;
             reason := PyStr "Barcode not found in database";
             expires_at := None; permissions := PyNone; cached := false |},
       w') ∧
    remote_calls w' = ["999999999"] ∧
    ∃ w'',
      verify_access example_fromisoformat true http_config (not_found_env 60)
        "999999999" "barcode" w' =
        (Ok {| granted := PyInt 0; barcode := "999999999";
               user_id := PyNone; user_name := PyNone; reason := PyNone;
               expires_at := None; permissions := PyList []; cached := true |},
         w'') ∧
      remote_calls w'' = remote_calls w'.
Proof.
  destruct (C2_not_found_is_denied_and_cached example_fromisoformat true
              http_config (not_found_env 0) "999999999" "barcode" empty_world
              (Ok (PyDict [("access_granted", PyBool false);
                           ("reason", PyStr "Barcode not found in database")])))
    as (w' & Hrun & Hcalls & Hnext).
  - reflexivity.
  - reflexivity.
  - discriminate.
  - reflexivity.
  - reflexivity.
  - reflexivity.
  - exists w'. split; [exact Hrun|]. split; [exact Hcalls|].
    apply (Hnext eq_refl (not_found_env 60) "barcode"); [reflexivity|].
    vm_compute. reflexivity.
Defined.

Lemma C5_stale_row_is_a_miss_witness :
  get_cached_access (timeout_env 7200) "555" world_555
    = (Ok None, world_555) ∧
  remote_calls
    (verify_access example_fromisoformat true http_config (timeout_env 7200)
       "555" "barcode" world_555).2 = [] ++ ["555"].
Proof.
  apply (C5_stale_row_is_a_miss example_fromisoformat true http_config
           (timeout_env 7200) "555" "barcode" world_555 row_555).
  - reflexivity.
  - vm_compute. discriminate.
Defined.

Lemma C6_unavailable_outcomes_are_not_cached_witness :
  (verify_barcode example_fromisoformat true http_config
     (server_error_env 10) "123456789" empty_world).1 = Ok None ∧
  access_cache
    (verify_access example_fromisoformat true http_config
       (server_error_env 10) "123456789" "barcode" empty_world).2
  = access_cache empty_world ∧
  (verify_access example_fromisoformat true http_config
     (server_error_env 10) "123456789" "barcode" empty_world).1
  = Ok (fallback_result "123456789").
Proof.
  destruct (C6_unavailable_outcomes_are_not_cached example_fromisoformat true
              http_config (server_error_env 10) "123456789" "barcode"
              empty_world) as [Hun _].
  - reflexivity.
  - destruct Hun as (H1 & H2 & H3).
    + right; right. eexists _, _. split; [reflexivity|]. split; discriminate.
    + split; [exact H1|]. split; [exact H2|]. apply H3. reflexivity.
Defined.

Lemma C7_second_call_is_served_from_cache_witness :
  ∃ w1 r2 w2,
    verify_access example_fromisoformat true http_config
      (quiet_env 0 (Response 200 (Ok grant_body)))
      "123456789" "barcode" empty_world
    = (Ok (grant_result "123456789"), w1) ∧
    access_cache w1 !! "123456789" = Some grant_row ∧
    verify_access example_fromisoformat true http_config (timeout_env 60)
      "123456789" "api" w1 = (Ok r2, w2) ∧
    cached r2 = true ∧
    granted r2 = PyInt 1 ∧
    user_id r2 = PyStr "user001" ∧
    user_name r2 = PyNone ∧
    reason r2 = PyNone ∧
    remote_calls w2 = remote_calls w1.
Proof.
  destruct (C7_second_call_is_served_from_cache example_fromisoformat true
              http_config (quiet_env 0 (Response 200 (Ok grant_body)))
              (timeout_env 60) "123456789" "barcode" "api" empty_world
              (grant_result "123456789") grant_row)
    as (w1 & r2 & w2 & H1 & Hrow & H2 & _ & Hc & _ & _ & _ & Hg & _ & Hu
        & Hn & Hr & Hcalls).
  - reflexivity.
  - reflexivity.
  - reflexivity.
  - reflexivity.
  - vm_compute. reflexivity.
  - exists w1, r2, w2.
    split; [exact H1|]. split; [exact Hrow|]. split; [exact H2|].
    split; [exact Hc|]. split; [exact (Hg true eq_refl)|].
    split; [apply Hu; right; by eexists|].
    split; [apply Hn; by left|]. split; [exact Hr|exact Hcalls].
Defined.

Lemma C8_cleanup_removes_old_rows_witness :
  ∃ w',
    cleanup_old_cache (timeout_env 100000) default_max_age_hours two_row_world
    = (Ok PyNone, w') ∧
    (∀ b row,
       access_cache w' !! b = Some row ↔
       access_cache two_row_world !! b = Some row
       ∧ ¬ (row_cached_at row
            < now (timeout_env 100000) - default_max_age_hours * 3600)%Z) ∧
    access_logs w' = access_logs two_row_world.
Proof.
  apply (C8_cleanup_removes_old_rows (timeout_env 100000)
           default_max_age_hours two_row_world).
  - reflexivity.
  - unfold default_max_age_hours. lia.
  - unfold default_max_age_hours, datetime_min, datetime_max. cbn. lia.
Defined.

Lemma C9_unconfigured_remote_denies_witness :
  (verify_barcode example_fromisoformat true default_config (timeout_env 10)
     "TEST123" empty_world).1 = Ok None ∧
  (verify_access example_fromisoformat true default_config (timeout_env 10)
     "TEST123" "barcode" empty_world).1 =
    Ok {| granted := PyBool false; barcode := "TEST123"; user_id := PyNone;
          user_name := PyNone;
          reason := PyStr "Remote verification unavailable";
          expires_at := None; permissions := PyNone; cached := false |}.
Proof.
  apply (C9_unconfigured_remote_denies example_fromisoformat true
           default_config (timeout_env 10) "TEST123" "barcode" empty_world).
  - right. reflexivity.
  - reflexivity.
Defined.

Lemma C10_missing_grant_flag_is_deny_witness :
  ∃ r, _parse_verification_response example_fromisoformat "TEST123"
         (PyDict [("user_id", PyStr "user001")]) = Ok r
       ∧ granted r = PyBool false.
Proof.
  apply (C10_missing_grant_flag_is_deny example_fromisoformat "TEST123"
           (PyDict [("user_id", PyStr "user001")])).
  reflexivity.
Defined.

(** ** Where the claims as written fail *)

(** C1 as written fails. With the POST timing out on an empty cache the
    reason of the result is not "remote verification unavailable": the code
    writes it with a capital R. And when the miss of the first call comes
    from a failed cache read while a fresh row is in the table, the next
    call is served from that row and does not ask the remote verifier. *)
Lemma C1_counterexample :
  (∃ r,
     (verify_barcode example_fromisoformat true http_config (timeout_env 10)
        "123456789" empty_world).1 = Ok None ∧
     (verify_access example_fromisoformat true http_config (timeout_env 10)
        "123456789" "barcode" empty_world).1 = Ok r ∧
     reason r ≠ PyStr "remote verification unavailable") ∧
  ((verify_barcode example_fromisoformat true http_config
      (locked_read_env 10) "555" world_555).1 = Ok None ∧
   remote_calls
     (verify_access example_fromisoformat true http_config (timeout_env 20)
        "555" "barcode"
        (verify_access example_fromisoformat true http_config
           (locked_read_env 10) "555" "barcode" world_555).2).2
   = remote_calls
       (verify_access example_fromisoformat true http_config
          (locked_read_env 10) "555" "barcode" world_555).2).
Proof.
  split.
  - eexists. split; [reflexivity|]. split; [reflexivity|]. discriminate.
  - split; reflexivity.
Qed.

(** C2 as written fails. After a 404 for "999999999" on an empty cache the
    table holds a row for the barcode, and a call a minute later is served
    from it: the remote verifier has been asked once, not twice. *)
Lemma C2_counterexample :
  access_cache
    (verify_access example_fromisoformat true http_config (not_found_env 0)
       "999999999" "barcode" empty_world).2 !! "999999999"
  = Some {| row_user_id := PyNone; row_user_name := PyNone;
            row_granted := PyInt 0; row_permissions := PyList [];
            row_expires_at := None; row_cached_at := 0 |} ∧
  (verify_access example_fromisoformat true http_config (not_found_env 60)
     "999999999" "barcode"
     (verify_access example_fromisoformat true http_config
        (not_found_env 0) "999999999" "barcode" empty_world).2).1
  = Ok {| granted := PyInt 0; barcode := "999999999"; user_id := PyNone;
          user_name := PyNone; reason := PyNone; expires_at := None;
          permissions := PyList []; cached := true |} ∧
  remote_calls
    (verify_access example_fromisoformat true http_config (not_found_env 60)
       "999999999" "barcode"
       (verify_access example_fromisoformat true http_config
          (not_found_env 0) "999999999" "barcode" empty_world).2).2
  = ["999999999"].
Proof. vm_compute. repeat split. Qed.

(** C3 as written fails. When the audit INSERT raises, the call returns its
    result (here a grant) and no row is added to [access_logs]. And on a
    cache hit the row that is written says "Access granted" while the
    result has no reason at all. *)
Lemma C3_counterexample :
  ((verify_access example_fromisoformat true http_config
      (with_log_failure "OperationalError: disk I/O error"
         (quiet_env 0 (Response 200 (Ok grant_body))))
      "123456789" "barcode" empty_world).1
   = Ok (grant_result "123456789") ∧
   access_logs
     (verify_access example_fromisoformat true http_config
        (with_log_failure "OperationalError: disk I/O error"
           (quiet_env 0 (Response 200 (Ok grant_body))))
        "123456789" "barcode" empty_world).2 = []) ∧
  (∃ r entry,
     (verify_access example_fromisoformat true http_config (timeout_env 10)
        "555" "barcode" world_555).1 = Ok r ∧
     access_logs
       (verify_access example_fromisoformat true http_config (timeout_env 10)
          "555" "barcode" world_555).2 = [entry] ∧
     reason r = PyNone ∧
     log_reason entry = PyStr "Access granted" ∧
     log_reason entry ≠ reason r).
Proof.
  split.
  - split; reflexivity.
  - eexists _, _. split; [reflexivity|]. split; [reflexivity|].
    split; [reflexivity|]. split; [reflexivity|]. discriminate.
Qed.

(** C4 as written fails. With the cache read, the cache write and the
    audit write all failing, a 200 answer that grants is returned as a
    grant: none of the three failures has turned the result into a deny,
    and nothing of the call is left in the cache or in the audit table.
    And a result served from the cache has no reason at all, and its
    [granted] is the integer 1, not a [bool]. *)
Lemma C4_counterexample :
  (∃ r w',
     verify_access example_fromisoformat true http_config
       (broken_db_env 0 (Response 200 (Ok grant_body)))
       "123456789" "barcode" empty_world = (Ok r, w') ∧
     select_raises (broken_db_env 0 (Response 200 (Ok grant_body))) ≠ None ∧
     insert_cache_raises (broken_db_env 0 (Response 200 (Ok grant_body)))
       ≠ None ∧
     insert_log_raises (broken_db_env 0 (Response 200 (Ok grant_body)))
       ≠ None ∧
     granted r = PyBool true ∧
     access_cache w' = ∅ ∧
     access_logs w' = []) ∧
  (∃ r,
     (verify_access example_fromisoformat true http_config (timeout_env 10)
        "555" "barcode" world_555).1 = Ok r ∧
     cached r = true ∧
     reason r = PyNone ∧
     granted r = PyInt 1 ∧
     ∀ g, granted r ≠ PyBool g).
Proof.
  split.
  - eexists _, _. split; [reflexivity|].
    split; [discriminate|]. split; [discriminate|]. split; [discriminate|].
    split; [reflexivity|]. split; reflexivity.
  - eexists. split; [reflexivity|]. split; [reflexivity|].
    split; [reflexivity|]. split; [reflexivity|]. intros g. discriminate.
Qed.

(** C6 as written fails. A 200 response whose body is the JSON array [[]]
    is not classified as unavailable: [verify_barcode] returns an explicit
    deny, and [verify_access] writes it to the cache. *)
Lemma C6_counterexample :
  (verify_barcode example_fromisoformat true http_config (array_body_env 0)
     "123456789" empty_world).1
  = Ok (Some {| granted := PyBool false; barcode := "123456789";
                user_id := PyNone; user_name := PyNone;
                reason := PyStr "Invalid response format";
                expires_at := None; permissions := PyNone;
                cached := false |}) ∧
  (verify_barcode example_fromisoformat true http_config (array_body_env 0)
     "123456789" empty_world).1 ≠ Ok None ∧
  access_cache
    (verify_access example_fromisoformat true http_config (array_body_env 0)
       "123456789" "barcode" empty_world).2 !! "123456789"
  = Some {| row_user_id := PyNone; row_user_name := PyNone;
            row_granted := PyInt 0; row_permissions := PyList [];
            row_expires_at := None; row_cached_at := 0 |}.
Proof.
  split; [reflexivity|]. split; [discriminate|]. reflexivity.
Qed.

(** C7 as written fails. In scenario a the first call returns the reason
    "Access granted" and the second call, a minute later and served from the
    cache, returns no reason: the two reasons are not identical. And when
    the authority sends the string "0" for [access_granted] and the number
    7 for [user_id], the first call returns them as they are, a [granted]
    that is truthy, while the second call returns what the cache table made
    of them: the integer 0, which is not, and the string "7". *)
Lemma C7_counterexample :
  (∃ r1 r2,
     (verify_access example_fromisoformat true http_config
        (quiet_env 0 (Response 200 (Ok grant_body)))
        "123456789" "barcode" empty_world).1 = Ok r1 ∧
     (verify_access example_fromisoformat true http_config
        (quiet_env 60 (Response 200 (Ok grant_body)))
        "123456789" "barcode"
        (verify_access example_fromisoformat true http_config
           (quiet_env 0 (Response 200 (Ok grant_body)))
           "123456789" "barcode" empty_world).2).1 = Ok r2 ∧
     cached r2 = true ∧
     reason r1 = PyStr "Access granted" ∧
     reason r2 = PyNone ∧
     reason r1 ≠ reason r2) ∧
  (∃ r1 r2,
     (verify_access example_fromisoformat true http_config
        (quiet_env 0 (Response 200 (Ok zero_grant_body)))
        "123456789" "barcode" empty_world).1 = Ok r1 ∧
     (verify_access example_fromisoformat true http_config
        (quiet_env 60 (Response 200 (Ok zero_grant_body)))
        "123456789" "barcode"
        (verify_access example_fromisoformat true http_config
           (quiet_env 0 (Response 200 (Ok zero_grant_body)))
           "123456789" "barcode" empty_world).2).1 = Ok r2 ∧
     cached r2 = true ∧
     granted r1 = PyStr "0" ∧ truthy (granted r1) = true ∧
     granted r2 = PyInt 0 ∧ truthy (granted r2) = false ∧
     user_id r1 = PyInt 7 ∧
     user_id r2 = PyStr "7").
Proof.
  split.
  - eexists _, _. split; [reflexivity|]. split; [reflexivity|].
    split; [reflexivity|]. split; [reflexivity|]. split; [reflexivity|].
    discriminate.
  - eexists _, _. split; [reflexivity|]. split; [vm_compute; reflexivity|].
    repeat split.
Qed.

(** C8 as written fails. A sweep that removes one of two rows returns
    [None], not the count 1. When the DELETE raises, the row that is
    older than [max_age_hours] stays in the table. And with a
    [max_age_hours] that no [timedelta] can hold, here so far below zero
    that every row is before the cutoff, the sweep removes nothing. *)
Lemma C8_counterexample :
  ((cleanup_old_cache (timeout_env 100000) default_max_age_hours
      two_row_world).1 = Ok PyNone ∧
   (cleanup_old_cache (timeout_env 100000) default_max_age_hours
      two_row_world).1 ≠ Ok (PyInt 1) ∧
   size (access_cache two_row_world) = 2%nat ∧
   size (access_cache
           (cleanup_old_cache (timeout_env 100000) default_max_age_hours
              two_row_world).2) = 1%nat) ∧
  ((row_cached_at old_row
    < now (delete_fail_env 100000) - default_max_age_hours * 3600)%Z ∧
   access_cache
     (cleanup_old_cache (delete_fail_env 100000) default_max_age_hours
        two_row_world).2 !! "old" = Some old_row) ∧
  ((row_cached_at old_row
    < now (timeout_env 100000) - (- 24000000000) * 3600)%Z ∧
   (row_cached_at new_row
    < now (timeout_env 100000) - (- 24000000000) * 3600)%Z ∧
   delete_raises (timeout_env 100000) = None ∧
   cleanup_old_cache (timeout_env 100000) (- 24000000000) two_row_world
   = (Ok PyNone, two_row_world)).
Proof.
  split; [|split].
  - split; [reflexivity|]. split; [discriminate|]. split; reflexivity.
  - split; reflexivity.
  - split; [reflexivity|]. split; [reflexivity|]. split; reflexivity.
Qed.

(** ** Instances of the further properties *)

Lemma cache_write_then_read_round_trip_witness :
  (get_cached_access (timeout_env 60) "123456789"
     (cache_access_result (timeout_env 0) (grant_result "123456789")
        empty_world).2).1 =
    Ok (Some {| granted := PyInt 1; barcode := "123456789";
                user_id := PyStr "user001"; user_name := PyNone;
                reason := PyNone; expires_at := None;
                permissions := PyList [PyStr "door_access"];
                cached := true |}).
Proof.
  destruct (cache_write_then_read_round_trip (timeout_env 0) (timeout_env 60)
              (grant_result "123456789") grant_row empty_world) as [H _].
  - reflexivity.
  - reflexivity.
  - vm_compute. reflexivity.
  - exact H.
Defined.

Lemma cache_last_write_wins_witness :
  access_cache
    (cache_access_result (timeout_env 20)
       (AccessResult_deny "123456789" "Access expired")
       (cache_access_result (timeout_env 10) (grant_result "123456789")
          empty_world).2).2
  = access_cache
      (cache_access_result (timeout_env 20)
         (AccessResult_deny "123456789" "Access expired") empty_world).2.
Proof.
  apply (cache_last_write_wins (timeout_env 10) (timeout_env 20)
           (grant_result "123456789")
           (AccessResult_deny "123456789" "Access expired")
           {| row_user_id := PyNone; row_user_name := PyNone;
              row_granted := PyInt 0; row_permissions := PyList [];
              row_expires_at := None; row_cached_at := 20 |} empty_world).
  - reflexivity.
  - reflexivity.
Defined.

Lemma cleanup_is_invisible_to_lookups_witness :
  (get_cached_access (timeout_env 100010) "old"
     (cleanup_old_cache (timeout_env 100000) 24 two_row_world).2).1
  = (get_cached_access (timeout_env 100010) "old" two_row_world).1.
Proof.
  apply (cleanup_is_invisible_to_lookups (timeout_env 100000)
           (timeout_env 100010) 24 "old" two_row_world).
  - lia.
  - vm_compute. discriminate.
Defined.

Lemma get_access_logs_count_witness :
  ∃ rows,
    (get_access_logs (timeout_env 100) 2 2 three_log_world).1 = Ok rows ∧
    length rows
    = (Z.to_nat 2 `min`
         (length (access_logs three_log_world) - Z.to_nat 2))%nat.
Proof.
  apply (get_access_logs_count (timeout_env 100) 2 2 three_log_world).
  - reflexivity.
  - lia.
  - lia.
Defined.

Lemma get_access_logs_first_is_newest_witness :
  ∃ first rest,
    (get_access_logs (timeout_env 100) 1 0 three_log_world).1
    = Ok (first :: rest) ∧
    first ∈ access_logs three_log_world ∧
    ∀ e', e' ∈ access_logs three_log_world →
      (log_timestamp e' ≤ log_timestamp first)%Z.
Proof.
  apply (get_access_logs_first_is_newest (timeout_env 100) 1 three_log_world
           (audit_row 1 50 "A1")).
  - reflexivity.
  - lia.
  - unfold three_log_world. cbn. left.
Defined.

Lemma get_access_logs_negative_limit_returns_all_witness :
  ∃ rows,
    (get_access_logs (timeout_env 100) (-1) 0 three_log_world).1 = Ok rows ∧
    rows ≡ₚ access_logs three_log_world.
Proof.
  apply (get_access_logs_negative_limit_returns_all (timeout_env 100) (-1) 0
           three_log_world).
  - reflexivity.
  - lia.
  - lia.
Defined.

Lemma grant_needs_explicit_evidence_witness :
  (∃ row,
     select_raises (quiet_env 0 (Response 200 (Ok grant_body))) = None ∧
     access_cache empty_world !! "123456789" = Some row ∧
     (now (quiet_env 0 (Response 200 (Ok grant_body))) - row_cached_at row
      < 3600)%Z ∧
     row_granted row = granted (grant_result "123456789"))
  ∨ (∃ kv,
       post (quiet_env 0 (Response 200 (Ok grant_body)))
       = Response 200 (Ok (PyDict kv)) ∧
       assoc kv "access_granted" = Some (granted (grant_result "123456789")) ∧
       type http_config = "http" ∧
       base_url (http http_config) ≠ "" ∧
       true = true).
Proof.
  apply (grant_needs_explicit_evidence example_fromisoformat true http_config
           (quiet_env 0 (Response 200 (Ok grant_body))) "123456789" "barcode"
           empty_world (grant_result "123456789")).
  - reflexivity.
  - reflexivity.
Defined.

Lemma remote_grant_value_is_passed_through_witness :
  ∃ r,
    (verify_access example_fromisoformat true http_config
       (quiet_env 0 (Response 200 (Ok (PyDict string_grant_body))))
       "123456789" "barcode" empty_world).1 = Ok r ∧
    granted r = PyStr "false" ∧
    cached r = false.
Proof.
  apply (remote_grant_value_is_passed_through example_fromisoformat true
           http_config
           (quiet_env 0 (Response 200 (Ok (PyDict string_grant_body))))
           "123456789" "barcode" empty_world string_grant_body
           (PyStr "false")).
  - reflexivity.
  - reflexivity.
  - discriminate.
  - reflexivity.
  - reflexivity.
  - reflexivity.
  - reflexivity.
Defined.

Lemma fresh_row_serves_every_call_witness :
  remote_calls
    (run_calls example_fromisoformat true http_config
       (map (λ env, CallVerify env "555" "barcode")
          [timeout_env 10; timeout_env 20; timeout_env 3000]) world_555)
  = remote_calls world_555 ∧
  access_cache
    (run_calls example_fromisoformat true http_config
       (map (λ env, CallVerify env "555" "barcode")
          [timeout_env 10; timeout_env 20; timeout_env 3000]) world_555)
  = access_cache world_555.
Proof.
  apply (fresh_row_serves_every_call example_fromisoformat true http_config
           [timeout_env 10; timeout_env 20; timeout_env 3000] "555" "barcode"
           world_555 row_555).
  - reflexivity.
  - repeat constructor.
Defined.

Lemma door_stays_shut_without_an_answer_witness :
  (_process_barcode_access example_fromisoformat true http_config
     default_hardware (timeout_env 10) None "123456789"
     (empty_world, idle_hardware)).2.2 = idle_hardware.
Proof.
  apply (door_stays_shut_without_an_answer example_fromisoformat true
           http_config default_hardware (timeout_env 10) None "123456789"
           empty_world idle_hardware).
  - reflexivity.
  - intros r. discriminate.
Defined.

Lemma cached_grant_opens_door_whatever_its_expiry_witness :
  pin_states
    (_process_barcode_access example_fromisoformat true http_config
       default_hardware (timeout_env 2000) None "777"
       (expired_world, idle_hardware)).2.2
    !! door_control (relays default_hardware) = Some 1%Z ∧
  remote_calls
    (_process_barcode_access example_fromisoformat true http_config
       default_hardware (timeout_env 2000) None "777"
       (expired_world, idle_hardware)).2.1
  = remote_calls expired_world.
Proof.
  apply (cached_grant_opens_door_whatever_its_expiry example_fromisoformat
           true http_config default_hardware (timeout_env 2000) "777"
           expired_world idle_hardware expired_row).
  - reflexivity.
  - reflexivity.
  - vm_compute. reflexivity.
  - reflexivity.
Defined.

Lemma emergency_override_gpio_failure_witness :
  ∃ w' entry,
    emergency_override default_hardware (timeout_env 10)
      (Some "RuntimeError: GPIO not set up") "fire drill" "admin"
      (empty_world, idle_hardware)
    = (Raise ("Emergency override failed: "
              +:+ "RuntimeError: GPIO not set up"), (w', idle_hardware)) ∧
    access_logs w' = access_logs empty_world ++ [entry] ∧
    log_barcode entry = "EMERGENCY" ∧
    log_granted entry = PyInt 1.
Proof.
  apply (emergency_override_gpio_failure default_hardware (timeout_env 10)
           "RuntimeError: GPIO not set up" "fire drill" "admin" empty_world
           idle_hardware).
  - reflexivity.
  - reflexivity.
Defined.

Lemma truthy_grant_value_opens_the_door_witness :
  pin_states
    (_process_barcode_access example_fromisoformat true http_config
       default_hardware
       (quiet_env 0 (Response 200 (Ok (PyDict string_grant_body)))) None
       "123456789" (empty_world, idle_hardware)).2.2
    !! door_control (relays default_hardware) = Some 1%Z.
Proof.
  apply (truthy_grant_value_opens_the_door example_fromisoformat true
           http_config default_hardware
           (quiet_env 0 (Response 200 (Ok (PyDict string_grant_body))))
           "123456789" empty_world idle_hardware string_grant_body
           (PyStr "false")).
  - reflexivity.
  - reflexivity.
  - discriminate.
  - reflexivity.
  - reflexivity.
  - reflexivity.
  - reflexivity.
  - reflexivity.
Defined.

Lemma unbindable_answer_leaves_no_trace_witness :
  ∃ r w',
    verify_access example_fromisoformat true http_config
      (quiet_env 0 (Response 200 (Ok array_user_body)))
      "123456789" "barcode" empty_world = (Ok r, w') ∧
    granted r = PyBool true ∧
    access_cache w' = access_cache empty_world ∧
    access_logs w' = access_logs empty_world.
Proof.
  destruct (unbindable_answer_leaves_no_trace example_fromisoformat true
              http_config (quiet_env 0 (Response 200 (Ok array_user_body)))
              "123456789" "barcode" empty_world
              {| granted := PyBool true; barcode := "123456789";
                 user_id := PyList [PyInt 1]; user_name := PyNone;
                 reason := PyStr "Access granted"; expires_at := None;
                 permissions := PyList []; cached := false |}
              "ProgrammingError: type 'list' is not supported")
    as (w' & Hrun & Hcache & Hlogs).
  - reflexivity.
  - reflexivity.
  - reflexivity.
  - eexists _, w'. split; [exact Hrun|]. split; [reflexivity|].
    split; [exact Hcache|exact Hlogs].
Defined.
